(** * AnomalyDetector.py: the two detection strategies and their factory

    A shallow embedding of [src/AnomalyDetector.py].  The Python classes
    [GMM] and [DeepLearning] become the modules [GMM] and [DeepLearning];
    a method is a computation in a small monad that threads the instance
    ([self]), the working directory with its files, and standard output,
    and that either returns or raises a Python exception.  State changes
    made before an exception is raised are kept, as in Python.

    The numerical libraries the file calls (numpy, scikit-learn, keras,
    joblib's unpickling of their objects) are not part of the repository:
    they are the fields of the class [Backend], and every theorem holds for
    every backend.  [Toy] is one executable backend on IEEE binary64
    numbers, used to run the embedding on concrete inputs. *)

From Stdlib Require Import Floats Ascii.
From stdpp Require Import gmap strings list pretty.

(** ** Exceptions and results *)

(** The exception classes that occur.  All of them derive from
    [Exception]; [FileNotFoundError] derives from [OSError].
    [LibraryError] stands for any other [Exception] raised inside a
    library call (unpickling errors, shape errors, not-fitted errors). *)
Inductive exn :=
  | FileNotFoundError (msg : string)
  | OSError (msg : string)
  | AttributeError (msg : string)
  | TypeError (msg : string)
  | ValueError (msg : string)
  | IndexError (msg : string)
  | LibraryError (msg : string).

(** [str(e)] *)
Definition str_exn (e : exn) : string :=
  match e with
  | FileNotFoundError m | OSError m | AttributeError m | TypeError m
  | ValueError m | IndexError m | LibraryError m => m
  end.

(** [isinstance(e, FileNotFoundError)] *)
Definition is_FileNotFoundError (e : exn) : bool :=
  match e with FileNotFoundError _ => true | _ => false end.

Inductive result (A : Type) :=
  | Ok (a : A)
  | Raised (e : exn).
Arguments Ok {A} a.
Arguments Raised {A} e.

Definition result_bind {A B} (r : result A) (k : A -> result B) : result B :=
  match r with Ok a => k a | Raised e => Raised e end.

(** ** The libraries *)

Inductive activation := relu | sigmoid.

(** [layers.Dense(units, activation=...)] *)
Record Dense := { units : nat; dense_activation : activation }.

Class Backend := {
  (** numbers: numpy float64 values, [+] and [>] on them, [str] of one *)
  num : Type;
  add : num -> num -> num;
  gtb : num -> num -> bool;
  str_num : num -> string;
  (** [str] of a row of a 2-d array *)
  str_row : list num -> string;
  (** [np.mean] and [np.std] of a 1-d array *)
  np_mean : list num -> num;
  np_std : list num -> num;
  (** a scikit-learn scaler: its constructor parameters, and what [fit]
      learns; [fit] recomputes the learnt part from the data alone *)
  scaler_hyper : Type;
  scaler_params : Type;
  sk_fit : scaler_hyper -> list (list num) -> result scaler_params;
  sk_transform : scaler_hyper -> scaler_params -> list (list num) ->
                 result (list (list num));
  (** [sklearn.mixture.GaussianMixture] *)
  gmm : Type;
  GaussianMixture : nat -> gmm;
  gmm_fit : gmm -> list (list num) -> result gmm;
  score_samples : gmm -> list (list num) -> result (list num);
  (** keras models *)
  keras : Type;
  history : Type;
  Sequential : nat -> list Dense -> result keras;
  keras_compile : keras -> string -> string -> result keras;
  (** [fit] and [predict] report their progress on standard output
      (they are verbose by default): a call gives the lines it wrote and
      then its value or the exception it raised *)
  keras_fit : keras -> list (list num) -> list (list num) -> nat -> nat ->
              list (list num) * list (list num) ->
              list string * result (keras * history);
  keras_predict : keras -> list (list num) -> list string * result (list (list num));
  (** [tf.keras.losses.mae] and [tf.keras.losses.mean_squared_error]:
      one value per row *)
  mae : list (list num) -> list (list num) -> result (list num);
  mean_squared_error : list (list num) -> list (list num) -> result (list num)
}.

(** a 2-d array: the list of its rows *)
Abbreviation matrix := (list (list num)).

Section Objects.
Context `{B : Backend}.

(** A scaler object: [fitted] is absent until [fit] has run. *)
Record Scaler := { hyper : scaler_hyper; fitted : option scaler_params }.

(** The Python values a pickle file can give back here. *)
Inductive pyobj :=
  | PyNone
  | PyScaler (s : Scaler)
  | PyGMM (g : gmm).

(** What a path holds.  [Corrupt msg] cannot be read by any loader:
    reading it raises an exception whose text is [msg]. *)
Inductive file :=
  | Pickle (o : pyobj)
  | H5 (k : keras)
  | Corrupt (msg : string).

Record world := World {
  cwd : string;
  files : gmap string file;
  stdout : list string
}.

Fixpoint ends_with_slash (s : string) : bool :=
  match s with
  | EmptyString => false
  | String "/"%char EmptyString => true
  | String _ rest => ends_with_slash rest
  end.

(** [os.path.join(a, b)] on POSIX *)
Definition path_join (a b : string) : string :=
  match b with
  | String "/"%char _ => b
  | _ =>
    if bool_decide (a = "") then b
    else if ends_with_slash a then a +:+ b
    else a +:+ "/" +:+ b
  end.

(** [joblib.load(path)] *)
Definition joblib_load (w : world) (path : string) : result pyobj :=
  match files w !! path with
  | None => Raised (FileNotFoundError ("[Errno 2] No such file or directory: '" +:+ path +:+ "'"))
  | Some (Pickle o) => Ok o
  | Some (H5 _) => Raised (LibraryError "invalid load key, 'H'.")
  | Some (Corrupt msg) => Raised (LibraryError msg)
  end.

(** [keras.models.load_model(path)]; a missing file is reported by keras
    as an [OSError], not as a [FileNotFoundError]. *)
Definition keras_load_model (w : world) (path : string) : result keras :=
  match files w !! path with
  | None => Raised (OSError ("No file or directory found at " +:+ path))
  | Some (H5 k) => Ok k
  | Some (Pickle _) => Raised (OSError "Unable to open file (file signature not found)")
  | Some (Corrupt msg) => Raised (LibraryError msg)
  end.

(** [TransformerMixin.fit_transform]: [self.fit(X).transform(X)]; the
    object is refitted in place. *)
Definition fit_transform (s : Scaler) (X : matrix) : result (Scaler * matrix) :=
  result_bind (sk_fit (hyper s) X) (fun p =>
  result_bind (sk_transform (hyper s) p X) (fun X' =>
  Ok ({| hyper := hyper s; fitted := Some p |}, X'))).

(** [scaler.transform(X)]: applies what an earlier [fit] learnt. *)
Definition transform (s : Scaler) (X : matrix) : result matrix :=
  match fitted s with
  | Some p => sk_transform (hyper s) p X
  | None => Raised (LibraryError "This scaler instance is not fitted yet.")
  end.

Definition no_attribute (type_name attr : string) : exn :=
  AttributeError ("'" +:+ type_name +:+ "' object has no attribute '" +:+ attr +:+ "'").

(** [o.fit_transform(X)] *)
Definition call_fit_transform (o : pyobj) (X : matrix) : result (pyobj * matrix) :=
  match o with
  | PyScaler s => result_bind (fit_transform s X) (fun '(s', X') => Ok (PyScaler s', X'))
  | PyNone => Raised (no_attribute "NoneType" "fit_transform")
  | PyGMM _ => Raised (no_attribute "GaussianMixture" "fit_transform")
  end.

(** [o.score_samples(X)] *)
Definition call_score_samples (o : pyobj) (X : matrix) : result (list num) :=
  match o with
  | PyGMM g => score_samples g X
  | PyNone => Raised (no_attribute "NoneType" "score_samples")
  | PyScaler _ => Raised (no_attribute "Scaler" "score_samples")
  end.

(** [o.fit(X)]: the object is fitted in place. *)
Definition call_fit (o : pyobj) (X : matrix) : result pyobj :=
  match o with
  | PyGMM g => result_bind (gmm_fit g X) (fun g' => Ok (PyGMM g'))
  | PyScaler s =>
      result_bind (sk_fit (hyper s) X) (fun p =>
      Ok (PyScaler {| hyper := hyper s; fitted := Some p |}))
  | PyNone => Raised (no_attribute "NoneType" "fit")
  end.

(** [X[index]] *)
Definition getitem (X : matrix) (index : nat) : result (list num) :=
  match X !! index with
  | Some row => Ok row
  | None => Raised (IndexError ("index " +:+ pretty index +:+ " is out of bounds"))
  end.

(** [score > threshold] for a numpy float and an attribute that may still
    be [None]: Python 3 refuses to order a number and [None]. *)
Definition py_gt (score : num) (threshold : option num) : result bool :=
  match threshold with
  | Some t => Ok (gtb score t)
  | None => Raised (TypeError "'>' not supported between instances of 'float' and 'NoneType'")
  end.

(** [error > threshold] for a tensor: tensorflow converts the right operand
    to a tensor first, and refuses [None]. *)
Definition tf_gt (error : num) (threshold : option num) : result bool :=
  match threshold with
  | Some t => Ok (gtb error t)
  | None => Raised (ValueError "None values not supported.")
  end.

(** [str(self.threshold)] *)
Definition str_threshold (threshold : option num) : string :=
  match threshold with Some t => str_num t | None => "None" end.

(** ** Instances and the monad of methods *)

(** The attributes of an instance.  [model] is [self.model], of a type
    that depends on the class; [scaler] is [None] here while the
    attribute [self.scaler] does not exist. *)
Record detector (Mdl : Type) := Detector {
  threshold : option num;
  model : Mdl;
  model_name : string;
  scaler_name : string;
  scaler : option pyobj
}.
Arguments Detector {Mdl}.
Arguments threshold {Mdl}.
Arguments model {Mdl}.
Arguments model_name {Mdl}.
Arguments scaler_name {Mdl}.
Arguments scaler {Mdl}.

Record state (Mdl : Type) := State { self : detector Mdl; env : world }.
Arguments State {Mdl}.
Arguments self {Mdl}.
Arguments env {Mdl}.

Definition M (Mdl A : Type) := state Mdl -> result A * state Mdl.

Definition ret {Mdl A} (a : A) : M Mdl A := fun st => (Ok a, st).

Definition bind {Mdl A C} (c : M Mdl A) (k : A -> M Mdl C) : M Mdl C :=
  fun st => match c st with
            | (Ok a, st') => k a st'
            | (Raised e, st') => (Raised e, st')
            end.

(** the value of a library call, or the exception it raised *)
Definition lift {Mdl A} (r : result A) : M Mdl A := fun st => (r, st).

(** a call that reads the file system *)
Definition with_world {Mdl A} (f : world -> result A) : M Mdl A :=
  fun st => (f (env st), st).

(** [try: body  except Exception as e: handler e] *)
Definition try_except {Mdl A} (body : M Mdl A) (handler : exn -> M Mdl A) : M Mdl A :=
  fun st => match body st with
            | (Ok a, st') => (Ok a, st')
            | (Raised e, st') => handler e st'
            end.

(** the state after [lines] were written to standard output *)
Definition emit {Mdl} (lines : list string) (st : state Mdl) : state Mdl :=
  State (self st) (World (cwd (env st)) (files (env st)) (stdout (env st) ++ lines)).

(** [print(line)] *)
Definition print {Mdl} (line : string) : M Mdl unit :=
  fun st => (Ok tt, emit [line] st).

(** a library call that writes to standard output: the lines it wrote
    are printed, whether it then returns or raises *)
Definition lift_printing {Mdl A} (r : list string * result A) : M Mdl A :=
  fun st => (snd r, emit (fst r) st).

(** [os.path.join(os.getcwd(), name)] *)
Definition in_cwd {Mdl} (name : string) : M Mdl string :=
  fun st => (Ok (path_join (cwd (env st)) name), st).

(** the state in which [path] holds [content] *)
Definition with_file {Mdl} (path : string) (content : file) (st : state Mdl) : state Mdl :=
  State (self st) (World (cwd (env st)) (<[path := content]> (files (env st))) (stdout (env st))).

(** writing [content] at [path].  The file system of the model takes
    every write: a [joblib.dump] or [model.save] that raises (no
    permission, no space left) has no counterpart here, and what is
    proved of [save_model] and [train_model] is about the runs in which
    the write went through. *)
Definition write_file {Mdl} (path : string) (content : file) : M Mdl unit :=
  fun st => (Ok tt, with_file path content st).

Definition get_threshold {Mdl} : M Mdl (option num) := fun st => (Ok (threshold (self st)), st).
Definition get_model {Mdl} : M Mdl Mdl := fun st => (Ok (model (self st)), st).
Definition get_model_name {Mdl} : M Mdl string := fun st => (Ok (model_name (self st)), st).
Definition get_scaler_name {Mdl} : M Mdl string := fun st => (Ok (scaler_name (self st)), st).

(** [self.scaler]: an [AttributeError] while the attribute does not exist *)
Definition get_scaler {Mdl} (class_name : string) : M Mdl pyobj :=
  fun st => match scaler (self st) with
            | Some o => (Ok o, st)
            | None => (Raised (no_attribute class_name "scaler"), st)
            end.

(** the states after the assignments [self.threshold = t],
    [self.model = m] and [self.scaler = o] *)
Definition with_threshold {Mdl} (t : option num) (st : state Mdl) : state Mdl :=
  State (Detector t (model (self st)) (model_name (self st))
                  (scaler_name (self st)) (scaler (self st))) (env st).

Definition with_model {Mdl} (m : Mdl) (st : state Mdl) : state Mdl :=
  State (Detector (threshold (self st)) m (model_name (self st))
                  (scaler_name (self st)) (scaler (self st))) (env st).

Definition with_scaler {Mdl} (o : pyobj) (st : state Mdl) : state Mdl :=
  State (Detector (threshold (self st)) (model (self st)) (model_name (self st))
                  (scaler_name (self st)) (Some o)) (env st).

Definition set_threshold {Mdl} (t : option num) : M Mdl unit :=
  fun st => (Ok tt, with_threshold t st).

Definition set_model {Mdl} (m : Mdl) : M Mdl unit :=
  fun st => (Ok tt, with_model m st).

Definition set_scaler {Mdl} (o : pyobj) : M Mdl unit :=
  fun st => (Ok tt, with_scaler o st).

End Objects.

Arguments Detector {B Mdl}.
Arguments threshold {B Mdl}.
Arguments model {B Mdl}.
Arguments model_name {B Mdl}.
Arguments scaler_name {B Mdl}.
Arguments scaler {B Mdl}.
Arguments State {B Mdl}.
Arguments self {B Mdl}.
Arguments env {B Mdl}.

Notation "x <~ c ;> k" := (bind c (fun x => k))
  (at level 20, c at level 99, k at level 200, only parsing).
Notation "' pat <~ c ;> k" := (bind c (fun x => match x with pat => k end))
  (at level 20, pat pattern, c at level 99, k at level 200, only parsing).
Notation "c ;> k" := (bind c (fun _ => k))
  (at level 100, k at level 200, right associativity, only parsing).

(** ** class GMM *)

Module GMM.
Section Methods.
Context `{B : Backend}.

(** [self.model] is whatever [joblib.load] returned, [None] at first. *)
Definition t := detector pyobj.

Definition init (dataset_name : string) : t :=
  {| threshold := None;
     model := PyNone;
     model_name := if bool_decide (dataset_name = "location")
                   then "GMM_location.pkl" else "GMM_velocity.pkl";
     scaler_name := if bool_decide (dataset_name = "location")
                    then "location_scaler.pkl" else "velocity_scaler.pkl";
     scaler := None |}.

Definition load_scaler : M pyobj unit :=
  try_except
    (name <~ get_scaler_name ;>
     path <~ in_cwd name ;>
     o <~ with_world (fun w => joblib_load w path) ;>
     set_scaler o ;>
     print "Scaler loaded successfully.")
    (fun e =>
       if is_FileNotFoundError e then print "Scaler file not found."
       else print ("An error occurred while loading the scaler: " +:+ str_exn e)).

(** [joblib.dump] pickles any object, [None] included. *)
Definition save_model : M pyobj unit :=
  m <~ get_model ;>
  name <~ get_model_name ;>
  path <~ in_cwd name ;>
  write_file path (Pickle m).

Definition determine_threshold (X_train : matrix) : M pyobj unit :=
  m <~ get_model ;>
  scores <~ lift (call_score_samples m X_train) ;>
  set_threshold (Some (add (np_mean scores) (np_std scores))).

Definition build_model (n_components : nat) : M pyobj unit :=
  set_model (PyGMM (GaussianMixture n_components)).

(** [build_model()] with the default [n_components=1] *)
Definition build_model_default : M pyobj unit := build_model 1.

Definition train_model (X_train : matrix) : M pyobj unit :=
  print "Training model..." ;>
  m <~ get_model ;>
  m' <~ lift (call_fit m X_train) ;>
  set_model m' ;>
  save_model ;>
  determine_threshold X_train ;>
  th <~ get_threshold ;>
  print ("GMM threshold: " +:+ str_threshold th).

Definition load_model : M pyobj unit :=
  try_except
    (name <~ get_model_name ;>
     path <~ in_cwd name ;>
     o <~ with_world (fun w => joblib_load w path) ;>
     set_model o ;>
     print "GMM model loaded successfully.")
    (fun e =>
       if is_FileNotFoundError e then print "GMM model file not found."
       else print ("An error occurred while loading the GMM model: " +:+ str_exn e)).

Definition is_None (o : pyobj) : bool :=
  match o with PyNone => true | _ => false end.

(** the two lines the loop can print for the sample at [index] *)
Definition normal_line (row : list num) (index : nat) : string :=
  str_row row +:+ " Data point at index " +:+ pretty index +:+ " is Normal".

Definition abnormal_line (row : list num) (index : nat) : string :=
  str_row row +:+ " Data point at index " +:+ pretty index +:+ " is Abnormal !!!".

(** [for index, score in enumerate(scores): ...], from [index] on *)
Fixpoint classify (X : matrix) (index : nat) (scores : list num) : M pyobj unit :=
  match scores with
  | [] => ret tt
  | score :: rest =>
      th <~ get_threshold ;>
      above <~ lift (py_gt score th) ;>
      row <~ lift (getitem X index) ;>
      (if above then print (normal_line row index)
       else print (abnormal_line row index)) ;>
      classify X (S index) rest
  end.

(** [self.load_scaler()] and [X = self.scaler.fit_transform(X)]; the
    scaler object is refitted in place *)
Definition normalize (X : matrix) : M pyobj matrix :=
  load_scaler ;>
  sc <~ get_scaler "GMM" ;>
  ' (sc', X') <~ lift (call_fit_transform sc X) ;>
  set_scaler sc' ;>
  ret X'.

(** [if self.model is None: ... self.load_model()] *)
Definition ensure_model : M pyobj unit :=
  m <~ get_model ;>
  if is_None m
  then print "Model not trained. Trying to load the model..." ;> load_model
  else ret tt.

Definition detect_anomalies (X : matrix) : M pyobj unit :=
  X' <~ normalize X ;>
  ensure_model ;>
  m <~ get_model ;>
  scores <~ lift (call_score_samples m X') ;>
  classify X' 0 scores.

(** [detect_anomalies] up to the loop: the normalised batch and its
    scores, in the state in which the loop starts *)
Definition score_batch (X : matrix) : M pyobj (matrix * list num) :=
  X' <~ normalize X ;>
  ensure_model ;>
  m <~ get_model ;>
  scores <~ lift (call_score_samples m X') ;>
  ret (X', scores).

End Methods.
End GMM.

(** ** class DeepLearning *)

Module DeepLearning.
Section Methods.
Context `{B : Backend}.

(** [self.model] is a keras model or [None]. *)
Definition t := detector (option keras).

Definition init (dataset_name : string) : t :=
  {| threshold := None;
     model := None;
     model_name := if bool_decide (dataset_name = "location")
                   then "DL_location_model.h5" else "DL_velocity_model.h5";
     scaler_name := if bool_decide (dataset_name = "location")
                    then "location_scaler.pkl" else "velocity_scaler.pkl";
     scaler := None |}.

Definition load_scaler : M (option keras) unit :=
  try_except
    (name <~ get_scaler_name ;>
     path <~ in_cwd name ;>
     o <~ with_world (fun w => joblib_load w path) ;>
     set_scaler o ;>
     print "Scaler loaded successfully.")
    (fun e =>
       if is_FileNotFoundError e then print "Scaler file not found."
       else print ("An error occurred while loading the scaler: " +:+ str_exn e)).

(** [self.model.<attr>] as a keras model *)
Definition the_model (attr : string) : M (option keras) keras :=
  m <~ get_model ;>
  match m with
  | Some k => ret k
  | None => lift (Raised (no_attribute "NoneType" attr))
  end.

Definition save_model : M (option keras) unit :=
  k <~ the_model "save" ;>
  name <~ get_model_name ;>
  path <~ in_cwd name ;>
  write_file path (H5 k).

Definition determine_threshold (X_train : matrix) : M (option keras) unit :=
  k <~ the_model "predict" ;>
  reconstructions <~ lift_printing (keras_predict k X_train) ;>
  errors <~ lift (mae X_train reconstructions) ;>
  set_threshold (Some (add (np_mean errors) (np_std errors))).

Definition build_model (input_dim : nat) : M (option keras) unit :=
  k <~ lift (Sequential input_dim
               [ {| units := 32; dense_activation := relu |};
                 {| units := 16; dense_activation := relu |};
                 {| units := 8; dense_activation := relu |};
                 {| units := 16; dense_activation := relu |};
                 {| units := 32; dense_activation := relu |};
                 {| units := input_dim; dense_activation := sigmoid |} ]) ;>
  set_model (Some k).

(** [model.compile] and [model.fit] change the model in place. *)
Definition train_model (X_train X_test : matrix) (epochs batch_size : nat)
    (optimizer loss : string) : M (option keras) history :=
  k <~ the_model "compile" ;>
  k1 <~ lift (keras_compile k optimizer loss) ;>
  set_model (Some k1) ;>
  print "Training model..." ;>
  k2 <~ the_model "fit" ;>
  ' (k3, hist) <~ lift_printing (keras_fit k2 X_train X_train epochs batch_size
                                   (X_test, X_test)) ;>
  set_model (Some k3) ;>
  save_model ;>
  determine_threshold X_train ;>
  th <~ get_threshold ;>
  print ("Deep learning threshold: " +:+ str_threshold th) ;>
  ret hist.

(** [train_model(X_train, X_test)] with the default keyword arguments *)
Definition train_model_default (X_train X_test : matrix) : M (option keras) history :=
  train_model X_train X_test 10 512 "adam" "mae".

Definition load_model : M (option keras) unit :=
  try_except
    (name <~ get_model_name ;>
     path <~ in_cwd name ;>
     k <~ with_world (fun w => keras_load_model w path) ;>
     set_model (Some k) ;>
     print "Deep Learning model loaded successfully.")
    (fun e =>
       if is_FileNotFoundError e then print "Deep Learning model file not found."
       else print ("An error occurred while loading the Deep Learning model: " +:+ str_exn e)).

Definition is_None (m : option keras) : bool :=
  match m with None => true | Some _ => false end.

Definition abnormal_line (index : nat) : string :=
  "Data point at index " +:+ pretty index +:+ " is Abnormal".

Definition normal_line (index : nat) : string :=
  "Data point at index " +:+ pretty index +:+ " is Normal".

(** [for index, error in enumerate(errors): ...], from [index] on *)
Fixpoint classify (index : nat) (errors : list num) : M (option keras) unit :=
  match errors with
  | [] => ret tt
  | error :: rest =>
      th <~ get_threshold ;>
      above <~ lift (tf_gt error th) ;>
      (if above then print (abnormal_line index)
       else print (normal_line index)) ;>
      classify (S index) rest
  end.

(** [self.load_scaler()] and [X = self.scaler.fit_transform(X)]; the
    scaler object is refitted in place *)
Definition normalize (X : matrix) : M (option keras) matrix :=
  load_scaler ;>
  sc <~ get_scaler "DeepLearning" ;>
  ' (sc', X') <~ lift (call_fit_transform sc X) ;>
  set_scaler sc' ;>
  ret X'.

(** [if self.model is None: ... self.load_model()] *)
Definition ensure_model : M (option keras) unit :=
  m <~ get_model ;>
  if is_None m
  then print "Model not trained. Trying to load the model..." ;> load_model
  else ret tt.

Definition detect_anomalies (X : matrix) : M (option keras) unit :=
  X' <~ normalize X ;>
  ensure_model ;>
  k <~ the_model "predict" ;>
  reconstructions <~ lift_printing (keras_predict k X') ;>
  errors <~ lift (mean_squared_error X' reconstructions) ;>
  classify 0 errors.

(** [detect_anomalies] up to the loop: the errors of the normalised
    batch, in the state in which the loop starts *)
Definition score_batch (X : matrix) : M (option keras) (list num) :=
  X' <~ normalize X ;>
  ensure_model ;>
  k <~ the_model "predict" ;>
  reconstructions <~ lift_printing (keras_predict k X') ;>
  lift (mean_squared_error X' reconstructions).

End Methods.
End DeepLearning.

(** ** class AnomalyDetectorFactory *)

Section Factory.
Context `{B : Backend}.

(** An instance of one of the two subclasses of [AnomalyDetector]. *)
Inductive AnomalyDetector :=
  | IsGMM (d : GMM.t)
  | IsDeepLearning (d : DeepLearning.t).

Definition anomaly_detector (detector_type dataset_name : string) : result AnomalyDetector :=
  if bool_decide (detector_type = "classic") then
    Ok (IsGMM (GMM.init dataset_name))
  else if bool_decide (detector_type = "deep_learning") then
    Ok (IsDeepLearning (DeepLearning.init dataset_name))
  else
    Raised (ValueError ("Invalid anomaly detector type: " +:+ detector_type)).

End Factory.

(** ** Calls on an instance *)

(** The methods of an instance as data: a client of the class is a list
    of calls. *)
Module Calls.
Section Calls.
Context `{B : Backend}.

Inductive gmm_call :=
  | GLoadScaler
  | GSaveModel
  | GDetermineThreshold (X_train : matrix)
  | GBuildModel (n_components : nat)
  | GTrainModel (X_train : matrix)
  | GLoadModel
  | GDetectAnomalies (X : matrix).

Definition gmm_run (c : gmm_call) : M pyobj unit :=
  match c with
  | GLoadScaler => GMM.load_scaler
  | GSaveModel => GMM.save_model
  | GDetermineThreshold X => GMM.determine_threshold X
  | GBuildModel n => GMM.build_model n
  | GTrainModel X => GMM.train_model X
  | GLoadModel => GMM.load_model
  | GDetectAnomalies X => GMM.detect_anomalies X
  end.

Inductive dl_call :=
  | DLoadScaler
  | DSaveModel
  | DDetermineThreshold (X_train : matrix)
  | DBuildModel (input_dim : nat)
  | DTrainModel (X_train X_test : matrix) (epochs batch_size : nat) (optimizer loss : string)
  | DLoadModel
  | DDetectAnomalies (X : matrix).

Definition dl_run (c : dl_call) : M (option keras) unit :=
  match c with
  | DLoadScaler => DeepLearning.load_scaler
  | DSaveModel => DeepLearning.save_model
  | DDetermineThreshold X => DeepLearning.determine_threshold X
  | DBuildModel n => DeepLearning.build_model n
  | DTrainModel X T ep bs opt loss =>
      DeepLearning.train_model X T ep bs opt loss ;> ret tt
  | DLoadModel => DeepLearning.load_model
  | DDetectAnomalies X => DeepLearning.detect_anomalies X
  end.

(** does the call run [determine_threshold]? *)
Definition gmm_thresholds (c : gmm_call) : bool :=
  match c with GDetermineThreshold _ | GTrainModel _ => true | _ => false end.

Definition dl_thresholds (c : dl_call) : bool :=
  match c with DDetermineThreshold _ | DTrainModel _ _ _ _ _ _ => true | _ => false end.

(** a client program: the calls in order, stopping at the first exception *)
Fixpoint run_all {Mdl C} (run : C -> M Mdl unit) (cs : list C) : M Mdl unit :=
  match cs with
  | [] => ret tt
  | c :: rest => run c ;> run_all run rest
  end.

End Calls.
End Calls.

(** ** What a computation may depend on *)

Section Observations.
Context `{B : Backend} {Mdl : Type}.

(** the computation never changes [self.threshold] *)
Definition keeps_threshold {A} (c : M Mdl A) : Prop :=
  forall st, threshold (self (snd (c st))) = threshold (self st).

(** [os.path.join(os.getcwd(), self.scaler_name)] and
    [os.path.join(os.getcwd(), self.model_name)] *)
Definition scaler_path (st : state Mdl) : string :=
  path_join (cwd (env st)) (scaler_name (self st)).

Definition model_path (st : state Mdl) : string :=
  path_join (cwd (env st)) (model_name (self st)).

(** two states that differ at most in what the file at [path] holds,
    where [path] is not the path of the model file *)
Definition same_but (path : string) (st1 st2 : state Mdl) : Prop :=
  self st1 = self st2 /\
  cwd (env st1) = cwd (env st2) /\
  stdout (env st1) = stdout (env st2) /\
  delete path (files (env st1)) = delete path (files (env st2)) /\
  model_path st1 <> path.

(** the computation does not look at the file at [path] *)
Definition blind_to (path : string) {A} (c : M Mdl A) : Prop :=
  forall st1 st2, same_but path st1 st2 ->
    fst (c st1) = fst (c st2) /\ same_but path (snd (c st1)) (snd (c st2)).

End Observations.

(** ** What a computation leaves as it was *)

Section Preservation.
Context `{B : Backend} {Mdl : Type}.

(** the computation ends with the same [proj] of the state as it began,
    whether it returns or raises *)
Definition preserves {T A} (proj : state Mdl -> T) (c : M Mdl A) : Prop :=
  forall st, proj (snd (c st)) = proj st.

(** where an instance keeps its artifacts: the two file names and the
    working directory *)
Definition addresses (st : state Mdl) : string * string * string :=
  (model_name (self st), scaler_name (self st), cwd (env st)).

End Preservation.

(** does the call write a file?  [save_model] does, and [train_model],
    which calls it *)
Definition gmm_writes `{B : Backend} (c : Calls.gmm_call) : bool :=
  match c with Calls.GSaveModel | Calls.GTrainModel _ => true | _ => false end.

Definition dl_writes `{B : Backend} (c : Calls.dl_call) : bool :=
  match c with Calls.DSaveModel | Calls.DTrainModel _ _ _ _ _ _ => true | _ => false end.

(** ** An executable backend *)

(** IEEE binary64 numbers with textbook left-to-right sums; a scaler that
    maps the smallest entry of the batch it was fitted on to 0 and the
    largest to 1; a one-component spherical mixture scored by its
    log-density up to a constant; an "autoencoder" that answers every
    entry with one learnt level.  It serves to run the methods, and makes
    no claim to reproduce the libraries' numbers. *)
Module Toy.

Definition of_nat (n : nat) : float := PrimFloat.of_uint63 (Uint63.of_Z (Z.of_nat n)).

Definition fsum (l : list float) : float := foldl PrimFloat.add 0%float l.

Definition fmean (l : list float) : float := (fsum l / of_nat (length l))%float.

Definition fstd (l : list float) : float :=
  let m := fmean l in
  PrimFloat.sqrt (fmean (map (fun x => ((x - m) * (x - m))%float) l)).

Definition fmin (x y : float) : float := if PrimFloat.ltb y x then y else x.
Definition fmax (x y : float) : float := if PrimFloat.ltb x y then y else x.

Definition str_float (x : float) : string :=
  match Prim2SF x with
  | S754_zero s => if s then "-0.0" else "0.0"
  | S754_infinity s => if s then "-inf" else "inf"
  | S754_nan => "nan"
  | S754_finite s m e =>
      (if s then "-" else "") +:+ pretty (Z.pos m) +:+ "*2**" +:+ pretty e
  end.

Definition str_floats (row : list float) : string :=
  "[" +:+ String.concat " " (map str_float row) +:+ "]".

Definition scaler_fit (_ : unit) (X : list (list float)) : result (float * float) :=
  match concat X with
  | [] => Raised (ValueError "Found array with 0 sample(s)")
  | x :: xs => Ok (foldl fmin x xs, foldl fmax x xs)
  end.

Definition scaler_transform (_ : unit) (p : float * float) (X : list (list float))
    : result (list (list float)) :=
  Ok (map (map (fun x => ((x - fst p) / (snd p - fst p))%float)) X).

(** a mixture: the number of components and, once fitted, the mean row *)
Definition mixture : Type := nat * option (list float).

Definition mixture_fit (g : mixture) (X : list (list float)) : result mixture :=
  match X with
  | [] => Raised (ValueError "Found array with 0 sample(s)")
  | r :: rs =>
      Ok (fst g,
          Some (map (fun s => (s / of_nat (length X))%float)
                    (foldl (zip_with PrimFloat.add) r rs)))
  end.

Definition sqdist (row centre : list float) : float :=
  fsum (zip_with (fun x c => ((x - c) * (x - c))%float) row centre).

Definition mixture_score (g : mixture) (X : list (list float)) : result (list float) :=
  match snd g with
  | Some centre => Ok (map (fun row => (-0.5 * sqdist row centre)%float) X)
  | None => Raised (LibraryError "This GaussianMixture instance is not fitted yet.")
  end.

Record network := {
  input_dim : nat;
  layers : list Dense;
  compiled : option (string * string);
  level : float
}.

(** the progress bar of a pass over [steps] batches, and the lines of a
    fit of [epochs] epochs on one batch *)
Definition progress_line (steps : nat) : string :=
  pretty steps +:+ "/" +:+ pretty steps +:+ " [==============================]".

Definition epoch_lines (epochs : nat) : list string :=
  flat_map (fun i => ["Epoch " +:+ pretty i +:+ "/" +:+ pretty epochs; progress_line 1])
           (seq 1 epochs).

Definition network_fit (k : network) (X Y : list (list float)) (epochs batch_size : nat)
    (validation_data : list (list float) * list (list float))
    : list string * result (network * list float) :=
  match compiled k with
  | None => ([], Raised (LibraryError "You must compile your model before training/testing."))
  | Some _ =>
      (epoch_lines epochs,
       Ok ({| input_dim := input_dim k; layers := layers k; compiled := compiled k;
              level := fmean (concat Y) |}, []))
  end.

Definition network_predict (k : network) (X : list (list float))
    : list string * result (list (list float)) :=
  ([progress_line 1], Ok (map (map (fun _ => level k)) X)).

(** the mean over each row of [f x r] *)
Definition rowwise (f : float -> float -> float) (X R : list (list float))
    : result (list float) :=
  if bool_decide (length X = length R)
  then Ok (zip_with (fun x r => fmean (zip_with f x r)) X R)
  else Raised (ValueError "Shapes are incompatible").

#[export] Instance backend : Backend := {|
  num := float;
  add := PrimFloat.add;
  gtb := fun x y => PrimFloat.ltb y x;
  str_num := str_float;
  str_row := str_floats;
  np_mean := fmean;
  np_std := fstd;
  scaler_hyper := unit;
  scaler_params := float * float;
  sk_fit := scaler_fit;
  sk_transform := scaler_transform;
  gmm := mixture;
  GaussianMixture := fun n => (n, None);
  gmm_fit := mixture_fit;
  score_samples := mixture_score;
  keras := network;
  history := list float;
  Sequential := fun n ls =>
    Ok {| input_dim := n; layers := ls; compiled := None; level := 0.5%float |};
  keras_compile := fun k optimizer loss =>
    Ok {| input_dim := input_dim k; layers := layers k;
          compiled := Some (optimizer, loss); level := level k |};
  keras_fit := network_fit;
  keras_predict := network_predict;
  mae := rowwise (fun x r => PrimFloat.abs (x - r)%float);
  mean_squared_error := rowwise (fun x r => ((x - r) * (x - r))%float)
|}.

(** a fitted scaler, a fitted mixture and a trained network, as files of
    the directory "/data" *)
Definition a_scaler : Scaler :=
  {| hyper := tt; fitted := Some (0%float, 8%float) |}.

Definition a_mixture : mixture := (1, Some [0.25%float]).

Definition a_network : network :=
  {| input_dim := 1; layers := []; compiled := Some ("adam", "mae"); level := 0.5%float |}.

Definition empty_dir : world := {| cwd := "/data"; files := ∅; stdout := [] |}.

Definition trained_dir : world :=
  {| cwd := "/data";
     files := <["/data/location_scaler.pkl" := Pickle (PyScaler a_scaler)]>
              (<["/data/GMM_location.pkl" := Pickle (PyGMM a_mixture)]>
              (<["/data/DL_location_model.h5" := H5 a_network]> ∅));
     stdout := [] |}.

(** a batch of three one-feature samples *)
Definition batch : matrix := [[0%float]; [2%float]; [4%float]].

(** the same scaler after a fit on other data *)
Definition b_scaler : Scaler :=
  {| hyper := tt; fitted := Some ((-4)%float, 4%float) |}.

(** instances that hold a model and a threshold, as after training *)
Definition gmm_ready : state pyobj :=
  State {| threshold := Some (-0.0625)%float; model := PyGMM a_mixture;
           model_name := "GMM_location.pkl"; scaler_name := "location_scaler.pkl";
           scaler := None |} trained_dir.

Definition dl_ready : state (option keras) :=
  State {| threshold := Some 0.125%float; model := Some a_network;
           model_name := "DL_location_model.h5"; scaler_name := "location_scaler.pkl";
           scaler := None |} trained_dir.

(** [batch] once normalised by a scaler fitted on it, the scores of the
    mixture and the squared errors of the network on that, and the scores
    and absolute errors on [batch] as it is *)
Definition scaled_batch : matrix := [[0%float]; [0.5%float]; [1%float]].
Definition scaled_scores : list float := [(-0.03125)%float; (-0.03125)%float; (-0.28125)%float].
Definition scaled_errors : list float := [0.25%float; 0%float; 0.25%float].
Definition raw_errors : list float := [0.5%float; 1.5%float; 3.5%float].
Definition reconstruction : matrix := [[0.5%float]; [0.5%float]; [0.5%float]].

(** a directory that holds the scaler and no model *)
Definition scaler_only_dir : world :=
  {| cwd := "/data";
     files := <["/data/location_scaler.pkl" := Pickle (PyScaler a_scaler)]> ∅;
     stdout := [] |}.

(** what fitting on [batch] gives: the mixture and its scores of [batch]
    and of [scaled_batch], the scaler, the network with its
    reconstruction of any three samples, and its absolute errors on
    [batch] and squared errors on [scaled_batch] *)
Definition fitted_mixture : mixture := (1, Some [2%float]).
Definition fitted_scores : list float := [(-2)%float; (-0)%float; (-2)%float].
Definition fitted_scaled_scores : list float := [(-2)%float; (-1.125)%float; (-0.5)%float].
Definition refit_scaler : Scaler := {| hyper := tt; fitted := Some (0%float, 4%float) |}.
Definition trained_network : network :=
  {| input_dim := 1; layers := []; compiled := Some ("adam", "mae"); level := 2%float |}.
Definition trained_reconstruction : matrix := [[2%float]; [2%float]; [2%float]].
Definition trained_errors : list float := [2%float; 0%float; 2%float].
Definition trained_scaled_errors : list float := [4%float; 2.25%float; 1%float].

(** instances fresh from the constructors *)
Definition gmm_fresh (w : world) : state pyobj := State (GMM.init "location") w.
Definition dl_fresh (w : world) : state (option keras) := State (DeepLearning.init "location") w.

End Toy.

(** * Properties *)

(** ** Standard output *)

Section Output.
Context `{B : Backend} {Mdl : Type}.
Implicit Types st : state Mdl.

Lemma emit_emit st a b : emit b (emit a st) = emit (a ++ b) st.
Proof. unfold emit; simpl. by rewrite app_assoc. Qed.

Lemma emit_nil st : emit [] st = st.
Proof. destruct st as [d [c f o]]. unfold emit; simpl. by rewrite app_nil_r. Qed.

Lemma self_emit st lines : self (emit lines st) = self st.
Proof. reflexivity. Qed.

Lemma stdout_emit st lines : stdout (env (emit lines st)) = stdout (env st) ++ lines.
Proof. reflexivity. Qed.

End Output.

(** ** Computations that leave the threshold alone *)

Section Frames.
Context `{B : Backend} {Mdl : Type}.

Lemma keeps_ret {A} (a : A) : keeps_threshold (Mdl := Mdl) (ret a).
Proof. by intros st. Qed.

Lemma keeps_lift {A} (r : result A) : keeps_threshold (Mdl := Mdl) (lift r).
Proof. by intros st. Qed.

Lemma keeps_bind {A C} (c : M Mdl A) (k : A -> M Mdl C) :
  keeps_threshold c -> (forall a, keeps_threshold (k a)) -> keeps_threshold (bind c k).
Proof.
  intros Hc Hk st. unfold bind. specialize (Hc st).
  destruct (c st) as [[a|e] st']; simpl in *; [|done].
  by rewrite Hk.
Qed.

Lemma keeps_try_except {A} (body : M Mdl A) (handler : exn -> M Mdl A) :
  keeps_threshold body -> (forall e, keeps_threshold (handler e)) ->
  keeps_threshold (try_except body handler).
Proof.
  intros Hc Hk st. unfold try_except. specialize (Hc st).
  destruct (body st) as [[a|e] st']; simpl in *; [done|].
  by rewrite Hk.
Qed.

Lemma keeps_print line : keeps_threshold (Mdl := Mdl) (print line).
Proof. by intros st. Qed.

Lemma keeps_lift_printing {A} (r : list string * result A) :
  keeps_threshold (Mdl := Mdl) (lift_printing r).
Proof. by intros st. Qed.

Lemma keeps_in_cwd name : keeps_threshold (Mdl := Mdl) (in_cwd name).
Proof. by intros st. Qed.

Lemma keeps_with_world {A} (f : world -> result A) : keeps_threshold (Mdl := Mdl) (with_world f).
Proof. by intros st. Qed.

Lemma keeps_write_file path content : keeps_threshold (Mdl := Mdl) (write_file path content).
Proof. by intros st. Qed.

Lemma keeps_get_threshold : keeps_threshold (Mdl := Mdl) get_threshold.
Proof. by intros st. Qed.

Lemma keeps_get_model : keeps_threshold (Mdl := Mdl) get_model.
Proof. by intros st. Qed.

Lemma keeps_get_model_name : keeps_threshold (Mdl := Mdl) get_model_name.
Proof. by intros st. Qed.

Lemma keeps_get_scaler_name : keeps_threshold (Mdl := Mdl) get_scaler_name.
Proof. by intros st. Qed.

Lemma keeps_get_scaler class_name : keeps_threshold (Mdl := Mdl) (get_scaler class_name).
Proof. intros st. unfold get_scaler. by destruct (scaler (self st)). Qed.

Lemma keeps_set_model m : keeps_threshold (Mdl := Mdl) (set_model m).
Proof. by intros st. Qed.

Lemma keeps_set_scaler o : keeps_threshold (Mdl := Mdl) (set_scaler o).
Proof. by intros st. Qed.

End Frames.

Create HintDb frame.
#[export] Hint Resolve keeps_ret keeps_lift keeps_lift_printing keeps_print keeps_in_cwd
  keeps_with_world
  keeps_write_file keeps_get_threshold keeps_get_model keeps_get_model_name
  keeps_get_scaler_name keeps_get_scaler keeps_set_model keeps_set_scaler : frame.

(** splits a computation into its steps and looks each one up *)
Ltac keeps :=
  repeat match goal with
  | |- keeps_threshold (bind _ _) => apply keeps_bind; [| intros ?]
  | |- keeps_threshold (try_except _ _) => apply keeps_try_except; [| intros ?]
  | |- keeps_threshold (if ?b then _ else _) => destruct b
  | |- keeps_threshold (match ?x with _ => _ end) => destruct x
  | |- keeps_threshold _ => solve [auto with frame]
  end.

Section MethodFrames.
Context `{B : Backend}.

Lemma GMM_load_scaler_keeps : keeps_threshold GMM.load_scaler.
Proof. unfold GMM.load_scaler. keeps. Qed.

Lemma GMM_save_model_keeps : keeps_threshold GMM.save_model.
Proof. unfold GMM.save_model. keeps. Qed.

Lemma GMM_build_model_keeps n : keeps_threshold (GMM.build_model n).
Proof. unfold GMM.build_model. keeps. Qed.

Lemma GMM_load_model_keeps : keeps_threshold GMM.load_model.
Proof. unfold GMM.load_model. keeps. Qed.

Lemma GMM_classify_keeps X scores : forall index, keeps_threshold (GMM.classify X index scores).
Proof. induction scores as [|score rest IH]; intros index; simpl; keeps. Qed.

Lemma GMM_normalize_keeps X : keeps_threshold (GMM.normalize X).
Proof.
  unfold GMM.normalize. pose proof GMM_load_scaler_keeps. keeps.
Qed.

Lemma GMM_ensure_model_keeps : keeps_threshold GMM.ensure_model.
Proof.
  unfold GMM.ensure_model. pose proof GMM_load_model_keeps. keeps.
Qed.

Lemma GMM_score_batch_keeps X : keeps_threshold (GMM.score_batch X).
Proof.
  unfold GMM.score_batch.
  pose proof (GMM_normalize_keeps X). pose proof GMM_ensure_model_keeps. keeps.
Qed.

Lemma GMM_detect_anomalies_keeps X : keeps_threshold (GMM.detect_anomalies X).
Proof.
  unfold GMM.detect_anomalies.
  pose proof (GMM_normalize_keeps X). pose proof GMM_ensure_model_keeps.
  pose proof (GMM_classify_keeps). keeps.
Qed.

Lemma DL_load_scaler_keeps : keeps_threshold DeepLearning.load_scaler.
Proof. unfold DeepLearning.load_scaler. keeps. Qed.

Lemma DL_the_model_keeps attr : keeps_threshold (DeepLearning.the_model attr).
Proof. unfold DeepLearning.the_model. keeps. Qed.

Lemma DL_save_model_keeps : keeps_threshold DeepLearning.save_model.
Proof. unfold DeepLearning.save_model. pose proof DL_the_model_keeps. keeps. Qed.

Lemma DL_build_model_keeps n : keeps_threshold (DeepLearning.build_model n).
Proof. unfold DeepLearning.build_model. keeps. Qed.

Lemma DL_load_model_keeps : keeps_threshold DeepLearning.load_model.
Proof. unfold DeepLearning.load_model. keeps. Qed.

Lemma DL_classify_keeps errors : forall index, keeps_threshold (DeepLearning.classify index errors).
Proof. induction errors as [|error rest IH]; intros index; simpl; keeps. Qed.

Lemma DL_normalize_keeps X : keeps_threshold (DeepLearning.normalize X).
Proof.
  unfold DeepLearning.normalize. pose proof DL_load_scaler_keeps. keeps.
Qed.

Lemma DL_ensure_model_keeps : keeps_threshold DeepLearning.ensure_model.
Proof.
  unfold DeepLearning.ensure_model. pose proof DL_load_model_keeps. keeps.
Qed.

Lemma DL_score_batch_keeps X : keeps_threshold (DeepLearning.score_batch X).
Proof.
  unfold DeepLearning.score_batch.
  pose proof (DL_normalize_keeps X). pose proof DL_ensure_model_keeps.
  pose proof DL_the_model_keeps. keeps.
Qed.

Lemma DL_detect_anomalies_keeps X : keeps_threshold (DeepLearning.detect_anomalies X).
Proof.
  unfold DeepLearning.detect_anomalies.
  pose proof (DL_normalize_keeps X). pose proof DL_ensure_model_keeps.
  pose proof DL_the_model_keeps. pose proof DL_classify_keeps. keeps.
Qed.

End MethodFrames.

(** ** The loaders *)

Section Loaders.
Context `{B : Backend}.

Lemma GMM_load_scaler_ok (st : state pyobj) o :
  joblib_load (env st) (scaler_path st) = Ok o ->
  GMM.load_scaler st = (Ok tt, emit ["Scaler loaded successfully."] (with_scaler o st)).
Proof.
  intros H. unfold GMM.load_scaler, try_except, bind, get_scaler_name, in_cwd, with_world.
  unfold scaler_path in H. by rewrite H.
Qed.

Lemma GMM_load_scaler_failed (st : state pyobj) e :
  joblib_load (env st) (scaler_path st) = Raised e ->
  GMM.load_scaler st =
    (Ok tt, emit [if is_FileNotFoundError e then "Scaler file not found."
                  else "An error occurred while loading the scaler: " +:+ str_exn e] st).
Proof.
  intros H. unfold GMM.load_scaler, try_except, bind, get_scaler_name, in_cwd, with_world.
  unfold scaler_path in H. rewrite H. by destruct (is_FileNotFoundError e).
Qed.

Lemma GMM_load_model_ok (st : state pyobj) o :
  joblib_load (env st) (model_path st) = Ok o ->
  GMM.load_model st = (Ok tt, emit ["GMM model loaded successfully."] (with_model o st)).
Proof.
  intros H. unfold GMM.load_model, try_except, bind, get_model_name, in_cwd, with_world.
  unfold model_path in H. by rewrite H.
Qed.

Lemma GMM_load_model_failed (st : state pyobj) e :
  joblib_load (env st) (model_path st) = Raised e ->
  GMM.load_model st =
    (Ok tt, emit [if is_FileNotFoundError e then "GMM model file not found."
                  else "An error occurred while loading the GMM model: " +:+ str_exn e] st).
Proof.
  intros H. unfold GMM.load_model, try_except, bind, get_model_name, in_cwd, with_world.
  unfold model_path in H. rewrite H. by destruct (is_FileNotFoundError e).
Qed.

Lemma DL_load_scaler_ok (st : state (option keras)) o :
  joblib_load (env st) (scaler_path st) = Ok o ->
  DeepLearning.load_scaler st = (Ok tt, emit ["Scaler loaded successfully."] (with_scaler o st)).
Proof.
  intros H. unfold DeepLearning.load_scaler, try_except, bind, get_scaler_name, in_cwd, with_world.
  unfold scaler_path in H. by rewrite H.
Qed.

Lemma DL_load_scaler_failed (st : state (option keras)) e :
  joblib_load (env st) (scaler_path st) = Raised e ->
  DeepLearning.load_scaler st =
    (Ok tt, emit [if is_FileNotFoundError e then "Scaler file not found."
                  else "An error occurred while loading the scaler: " +:+ str_exn e] st).
Proof.
  intros H. unfold DeepLearning.load_scaler, try_except, bind, get_scaler_name, in_cwd, with_world.
  unfold scaler_path in H. rewrite H. by destruct (is_FileNotFoundError e).
Qed.

Lemma DL_load_model_ok (st : state (option keras)) k :
  keras_load_model (env st) (model_path st) = Ok k ->
  DeepLearning.load_model st =
    (Ok tt, emit ["Deep Learning model loaded successfully."] (with_model (Some k) st)).
Proof.
  intros H. unfold DeepLearning.load_model, try_except, bind, get_model_name, in_cwd, with_world.
  unfold model_path in H. by rewrite H.
Qed.

Lemma DL_load_model_failed (st : state (option keras)) e :
  keras_load_model (env st) (model_path st) = Raised e ->
  DeepLearning.load_model st =
    (Ok tt, emit [if is_FileNotFoundError e then "Deep Learning model file not found."
                  else "An error occurred while loading the Deep Learning model: "
                       +:+ str_exn e] st).
Proof.
  intros H. unfold DeepLearning.load_model, try_except, bind, get_model_name, in_cwd, with_world.
  unfold model_path in H. rewrite H. by destruct (is_FileNotFoundError e).
Qed.

(** Whatever the files hold, the four loaders return. *)
Lemma GMM_load_scaler_returns (st : state pyobj) : fst (GMM.load_scaler st) = Ok tt.
Proof.
  destruct (joblib_load (env st) (scaler_path st)) as [o|e] eqn:E.
  - by rewrite (GMM_load_scaler_ok _ _ E).
  - by rewrite (GMM_load_scaler_failed _ _ E).
Qed.

Lemma GMM_load_model_returns (st : state pyobj) : fst (GMM.load_model st) = Ok tt.
Proof.
  destruct (joblib_load (env st) (model_path st)) as [o|e] eqn:E.
  - by rewrite (GMM_load_model_ok _ _ E).
  - by rewrite (GMM_load_model_failed _ _ E).
Qed.

Lemma DL_load_scaler_returns (st : state (option keras)) :
  fst (DeepLearning.load_scaler st) = Ok tt.
Proof.
  destruct (joblib_load (env st) (scaler_path st)) as [o|e] eqn:E.
  - by rewrite (DL_load_scaler_ok _ _ E).
  - by rewrite (DL_load_scaler_failed _ _ E).
Qed.

Lemma DL_load_model_returns (st : state (option keras)) :
  fst (DeepLearning.load_model st) = Ok tt.
Proof.
  destruct (keras_load_model (env st) (model_path st)) as [o|e] eqn:E.
  - by rewrite (DL_load_model_ok _ _ E).
  - by rewrite (DL_load_model_failed _ _ E).
Qed.

(** A path that holds nothing, or something unreadable, makes both
    library loaders raise. *)
Lemma joblib_load_absent (w : world) path :
  files w !! path = None -> exists msg, joblib_load w path = Raised (FileNotFoundError msg).
Proof. intros H. unfold joblib_load. rewrite H. eauto. Qed.

Lemma joblib_load_corrupt (w : world) path msg :
  files w !! path = Some (Corrupt msg) -> joblib_load w path = Raised (LibraryError msg).
Proof. intros H. unfold joblib_load. by rewrite H. Qed.

Lemma keras_load_model_absent (w : world) path :
  files w !! path = None -> exists e, keras_load_model w path = Raised e.
Proof. intros H. unfold keras_load_model. rewrite H. eauto. Qed.

Lemma keras_load_model_corrupt (w : world) path msg :
  files w !! path = Some (Corrupt msg) -> keras_load_model w path = Raised (LibraryError msg).
Proof. intros H. unfold keras_load_model. by rewrite H. Qed.

End Loaders.

(** ** Claims about construction and loading *)

Section Construction.
Context `{B : Backend}.

(** C4. Construction selects the artifact file names from the dataset
    name: "location" gives location_scaler.pkl with GMM_location.pkl or
    DL_location_model.h5, and every other name, "velocity" included, gives
    velocity_scaler.pkl with GMM_velocity.pkl or DL_velocity_model.h5;
    whatever the dataset name, the factory constructs the instance and
    raises nothing. *)
Theorem artifact_filenames (dataset_name : string) :
  (dataset_name = "location" ->
     scaler_name (GMM.init dataset_name) = "location_scaler.pkl" /\
     model_name (GMM.init dataset_name) = "GMM_location.pkl" /\
     scaler_name (DeepLearning.init dataset_name) = "location_scaler.pkl" /\
     model_name (DeepLearning.init dataset_name) = "DL_location_model.h5") /\
  (dataset_name <> "location" ->
     scaler_name (GMM.init dataset_name) = "velocity_scaler.pkl" /\
     model_name (GMM.init dataset_name) = "GMM_velocity.pkl" /\
     scaler_name (DeepLearning.init dataset_name) = "velocity_scaler.pkl" /\
     model_name (DeepLearning.init dataset_name) = "DL_velocity_model.h5") /\
  anomaly_detector "classic" dataset_name = Ok (IsGMM (GMM.init dataset_name)) /\
  anomaly_detector "deep_learning" dataset_name
    = Ok (IsDeepLearning (DeepLearning.init dataset_name)).
Proof.
  split; [|split; [|split; reflexivity]].
  - intros ->. by repeat split.
  - intros Hne. simpl. rewrite !bool_decide_eq_false_2 by done. by repeat split.
Qed.

(** C3, as amended.  The factory returns a fresh [GMM] for "classic" and a
    fresh [DeepLearning] for "deep_learning" (no threshold, no model, no
    scaler attribute); for every other tag it raises [ValueError] and
    constructs nothing, and it raises nothing else.  The four loaders
    return whatever the files hold.  Nothing is said of the other methods,
    which can raise. *)
Theorem factory_dispatch (detector_type dataset_name : string) :
  (detector_type = "classic" ->
     anomaly_detector detector_type dataset_name = Ok (IsGMM (GMM.init dataset_name))) /\
  (detector_type = "deep_learning" ->
     anomaly_detector detector_type dataset_name
       = Ok (IsDeepLearning (DeepLearning.init dataset_name))) /\
  (detector_type <> "classic" -> detector_type <> "deep_learning" ->
     anomaly_detector detector_type dataset_name
       = Raised (ValueError ("Invalid anomaly detector type: " +:+ detector_type))) /\
  (forall e, anomaly_detector detector_type dataset_name = Raised e ->
     e = ValueError ("Invalid anomaly detector type: " +:+ detector_type) /\
     detector_type <> "classic" /\ detector_type <> "deep_learning") /\
  (threshold (GMM.init dataset_name) = None /\ model (GMM.init dataset_name) = PyNone /\
   scaler (GMM.init dataset_name) = None) /\
  (threshold (DeepLearning.init dataset_name) = None /\
   model (DeepLearning.init dataset_name) = None /\
   scaler (DeepLearning.init dataset_name) = None) /\
  (forall st, fst (GMM.load_scaler st) = Ok tt) /\
  (forall st, fst (GMM.load_model st) = Ok tt) /\
  (forall st, fst (DeepLearning.load_scaler st) = Ok tt) /\
  (forall st, fst (DeepLearning.load_model st) = Ok tt).
Proof.
  unfold anomaly_detector.
  repeat apply conj; try done.
  - by intros ->.
  - by intros ->.
  - intros H1 H2. by rewrite !bool_decide_eq_false_2.
  - intros e. repeat case_bool_decide; try done. by intros [= <-].
  - apply GMM_load_scaler_returns.
  - apply GMM_load_model_returns.
  - apply DL_load_scaler_returns.
  - apply DL_load_model_returns.
Qed.

(** C5. In both classes a failing load in [load_scaler] or [load_model]
    raises nothing: the method returns, it has printed one diagnostic line
    (the "not found" line for a [FileNotFoundError], the "error occurred"
    line with the text of the exception otherwise), and the instance and
    the files are as they were, so that a field that was unset stays
    unset. *)
Theorem load_failures_are_caught :
  (forall (st : state pyobj) e,
     joblib_load (env st) (scaler_path st) = Raised e ->
     GMM.load_scaler st =
       (Ok tt, emit [if is_FileNotFoundError e then "Scaler file not found."
                     else "An error occurred while loading the scaler: " +:+ str_exn e] st)) /\
  (forall (st : state pyobj) e,
     joblib_load (env st) (model_path st) = Raised e ->
     GMM.load_model st =
       (Ok tt, emit [if is_FileNotFoundError e then "GMM model file not found."
                     else "An error occurred while loading the GMM model: " +:+ str_exn e] st)) /\
  (forall (st : state (option keras)) e,
     joblib_load (env st) (scaler_path st) = Raised e ->
     DeepLearning.load_scaler st =
       (Ok tt, emit [if is_FileNotFoundError e then "Scaler file not found."
                     else "An error occurred while loading the scaler: " +:+ str_exn e] st)) /\
  (forall (st : state (option keras)) e,
     keras_load_model (env st) (model_path st) = Raised e ->
     DeepLearning.load_model st =
       (Ok tt, emit [if is_FileNotFoundError e then "Deep Learning model file not found."
                     else "An error occurred while loading the Deep Learning model: "
                          +:+ str_exn e] st)).
Proof.
  repeat apply conj.
  - apply GMM_load_scaler_failed.
  - apply GMM_load_model_failed.
  - apply DL_load_scaler_failed.
  - apply DL_load_model_failed.
Qed.

(** C10. The constructors create no [scaler] attribute and a failed
    [load_scaler] creates none either, while a successful one creates it;
    so when the attribute is missing and the scaler file cannot be
    loaded, [detect_anomalies] prints the diagnostic of [load_scaler] and
    then raises [AttributeError] at [self.scaler], in both classes. *)
Theorem missing_scaler_raises :
  (forall dataset_name,
     scaler (GMM.init dataset_name) = None /\
     scaler (DeepLearning.init dataset_name) = None) /\
  (forall (st : state pyobj) o,
     joblib_load (env st) (scaler_path st) = Ok o ->
     scaler (self (snd (GMM.load_scaler st))) = Some o) /\
  (forall (st : state (option keras)) o,
     joblib_load (env st) (scaler_path st) = Ok o ->
     scaler (self (snd (DeepLearning.load_scaler st))) = Some o) /\
  (forall (st : state pyobj) X e,
     scaler (self st) = None ->
     joblib_load (env st) (scaler_path st) = Raised e ->
     scaler (self (snd (GMM.load_scaler st))) = None /\
     GMM.detect_anomalies X st =
       (Raised (AttributeError "'GMM' object has no attribute 'scaler'"),
        emit [if is_FileNotFoundError e then "Scaler file not found."
              else "An error occurred while loading the scaler: " +:+ str_exn e] st)) /\
  (forall (st : state (option keras)) X e,
     scaler (self st) = None ->
     joblib_load (env st) (scaler_path st) = Raised e ->
     scaler (self (snd (DeepLearning.load_scaler st))) = None /\
     DeepLearning.detect_anomalies X st =
       (Raised (AttributeError "'DeepLearning' object has no attribute 'scaler'"),
        emit [if is_FileNotFoundError e then "Scaler file not found."
              else "An error occurred while loading the scaler: " +:+ str_exn e] st)).
Proof.
  repeat apply conj.
  - intros dataset_name. split; reflexivity.
  - intros st o H. by rewrite (GMM_load_scaler_ok _ _ H).
  - intros st o H. by rewrite (DL_load_scaler_ok _ _ H).
  - intros st X e Hnone H. split.
    + by rewrite (GMM_load_scaler_failed _ _ H).
    + unfold GMM.detect_anomalies, GMM.normalize, bind.
      rewrite (GMM_load_scaler_failed _ _ H). unfold get_scaler.
      rewrite self_emit, Hnone. reflexivity.
  - intros st X e Hnone H. split.
    + by rewrite (DL_load_scaler_failed _ _ H).
    + unfold DeepLearning.detect_anomalies, DeepLearning.normalize, bind.
      rewrite (DL_load_scaler_failed _ _ H). unfold get_scaler.
      rewrite self_emit, Hnone. reflexivity.
Qed.

End Construction.

(** ** The thresholds *)

Section Thresholds.
Context `{B : Backend}.


Lemma GMM_detect_split (st : state pyobj) X :
  GMM.detect_anomalies X st =
    bind (GMM.score_batch X) (fun '(X', scores) => GMM.classify X' 0 scores) st.
Proof.
  unfold GMM.detect_anomalies, GMM.score_batch, bind.
  destruct (GMM.normalize X st) as [[X'|e] st1]; [|done].
  destruct (GMM.ensure_model st1) as [[[]|e] st2]; [|done].
  unfold get_model, lift, ret.
  by destruct (call_score_samples (model (self st2)) X').
Qed.

Lemma DL_detect_split (st : state (option keras)) X :
  DeepLearning.detect_anomalies X st =
    bind (DeepLearning.score_batch X) (fun errors => DeepLearning.classify 0 errors) st.
Proof.
  unfold DeepLearning.detect_anomalies, DeepLearning.score_batch, bind.
  destruct (DeepLearning.normalize X st) as [[X'|e] st1]; [|done].
  destruct (DeepLearning.ensure_model st1) as [[[]|e] st2]; [|done].
  destruct (DeepLearning.the_model "predict" st2) as [[k|e] st3]; [|done].
  unfold lift, lift_printing.
  destruct (keras_predict k X') as [progress [R|e]]; [|done]. simpl.
  by destruct (mean_squared_error X' R).
Qed.

(** The loops with a threshold: one line per sample, by the comparison. *)
Lemma GMM_classify_some X t scores : forall index (st : state pyobj),
  threshold (self st) = Some t ->
  index + length scores <= length X ->
  GMM.classify X index scores st =
    (Ok tt,
     emit (imap (fun i rs => if gtb rs.2 t then GMM.normal_line rs.1 (index + i)
                             else GMM.abnormal_line rs.1 (index + i))
                (zip (drop index X) scores)) st).
Proof.
  induction scores as [|score rest IH]; intros index st Ht Hlen; simpl.
  - rewrite zip_with_nil_r. simpl. by rewrite emit_nil.
  - simpl in Hlen.
    destruct (lookup_lt_is_Some_2 X index) as [row Hrow]; [lia|].
    rewrite (drop_S _ _ _ Hrow). simpl.
    unfold bind at 1. unfold get_threshold. rewrite Ht.
    unfold bind at 1. unfold lift, py_gt.
    unfold bind at 1. unfold getitem. rewrite Hrow.
    unfold bind at 1. rewrite Nat.add_0_r.
    destruct (gtb score t); unfold print;
      (rewrite IH; [|by rewrite self_emit|lia]);
      rewrite emit_emit; do 2 f_equal; simpl; f_equal;
      apply imap_ext; intros i [r s] _; simpl; by rewrite Nat.add_succ_r.
Qed.

Lemma DL_classify_some t errors : forall index (st : state (option keras)),
  threshold (self st) = Some t ->
  DeepLearning.classify index errors st =
    (Ok tt,
     emit (imap (fun i error => if gtb error t then DeepLearning.abnormal_line (index + i)
                                else DeepLearning.normal_line (index + i))
                errors) st).
Proof.
  induction errors as [|error rest IH]; intros index st Ht; simpl.
  - by rewrite emit_nil.
  - unfold bind at 1. unfold get_threshold. rewrite Ht.
    unfold bind at 1. unfold lift, tf_gt.
    unfold bind at 1. rewrite Nat.add_0_r.
    destruct (gtb error t); unfold print;
      (rewrite IH; [|by rewrite self_emit]);
      rewrite emit_emit; do 2 f_equal; simpl; f_equal;
      apply imap_ext; intros i e _; simpl; by rewrite Nat.add_succ_r.
Qed.

(** The loops without a threshold: the first comparison raises. *)
Lemma GMM_classify_none X index score rest (st : state pyobj) :
  threshold (self st) = None ->
  GMM.classify X index (score :: rest) st =
    (Raised (TypeError "'>' not supported between instances of 'float' and 'NoneType'"), st).
Proof.
  intros Ht. simpl. unfold bind, get_threshold, lift. by rewrite Ht.
Qed.

Lemma DL_classify_none index error rest (st : state (option keras)) :
  threshold (self st) = None ->
  DeepLearning.classify index (error :: rest) st =
    (Raised (ValueError "None values not supported."), st).
Proof.
  intros Ht. simpl. unfold bind, get_threshold, lift. by rewrite Ht.
Qed.



End Thresholds.

(** ** Classification *)

Section Classification.
Context `{B : Backend}.


(** C7. [determine_threshold] of DeepLearning takes the threshold from
    [mae] between the training samples and their reconstructions (and
    from nothing else: when [mae] raises, so does the method), while
    [detect_anomalies] compares with the threshold the values of
    [mean_squared_error] between the normalised samples and their
    reconstructions: sample [i] is printed abnormal exactly when its mean
    squared error is [>] the threshold.  The two library functions are
    different statistics: on binary64 numbers, with the mean of the
    absolute and of the squared differences over a row, a one-sample batch
    already gives 3 for the one and 9 for the other. *)
Theorem threshold_and_score_use_two_metrics :
  (forall (st : state (option keras)) X_train k progress reconstructions,
     model (self st) = Some k ->
     keras_predict k X_train = (progress, Ok reconstructions) ->
     DeepLearning.determine_threshold X_train st =
       match mae X_train reconstructions with
       | Ok errors =>
           (Ok tt,
            with_threshold (Some (add (np_mean errors) (np_std errors))) (emit progress st))
       | Raised e => (Raised e, emit progress st)
       end) /\
  (forall (st st' : state (option keras)) X X' k progress reconstructions errors t,
     DeepLearning.normalize X st = (Ok X', st') ->
     model (self st') = Some k ->
     threshold (self st) = Some t ->
     keras_predict k X' = (progress, Ok reconstructions) ->
     mean_squared_error X' reconstructions = Ok errors ->
     DeepLearning.detect_anomalies X st =
       (Ok tt,
        emit (progress ++
              imap (fun i error => if gtb error t then DeepLearning.abnormal_line i
                                   else DeepLearning.normal_line i) errors) st')) /\
  @mae Toy.backend [[3%float]] [[0%float]] = Ok [3%float] /\
  @mean_squared_error Toy.backend [[3%float]] [[0%float]] = Ok [9%float].
Proof.
  split; [|split; [|split; reflexivity]].
  - intros st X k progress R Hm Hp.
    unfold DeepLearning.determine_threshold, DeepLearning.the_model, bind, get_model, lift,
      lift_printing, ret, set_threshold.
    rewrite Hm, Hp. simpl. by destruct (mae X R).
  - intros st st' X X' k progress R errors t Hn Hm Ht Hp He.
    assert (threshold (self st') = Some t) as Ht'.
    { pose proof (DL_normalize_keeps X st) as Hk. rewrite Hn in Hk. simpl in Hk. congruence. }
    unfold DeepLearning.detect_anomalies. unfold bind at 1. rewrite Hn.
    unfold DeepLearning.ensure_model, DeepLearning.the_model, bind, get_model, lift,
      lift_printing, ret.
    rewrite Hm. simpl. rewrite Hm, Hp. simpl. rewrite He.
    rewrite (DL_classify_some t errors 0 (emit progress st')) by done.
    by rewrite emit_emit.
Qed.

End Classification.

(** ** Where the threshold comes from *)

Section ThresholdSource.
Context `{B : Backend}.

Lemma run_all_keeps {Mdl C} (run : C -> M Mdl unit) (cs : list C) :
  Forall (fun c => keeps_threshold (run c)) cs -> keeps_threshold (Calls.run_all run cs).
Proof.
  induction 1 as [|c cs Hc _ IH]; simpl; keeps.
Qed.

Lemma gmm_run_keeps (c : Calls.gmm_call) :
  Calls.gmm_thresholds c = false -> keeps_threshold (Calls.gmm_run c).
Proof.
  destruct c; simpl; try discriminate; intros _.
  - apply GMM_load_scaler_keeps.
  - apply GMM_save_model_keeps.
  - apply GMM_build_model_keeps.
  - apply GMM_load_model_keeps.
  - apply GMM_detect_anomalies_keeps.
Qed.

Lemma dl_run_keeps (c : Calls.dl_call) :
  Calls.dl_thresholds c = false -> keeps_threshold (Calls.dl_run c).
Proof.
  destruct c; simpl; try discriminate; intros _.
  - apply DL_load_scaler_keeps.
  - apply DL_save_model_keeps.
  - apply DL_build_model_keeps.
  - apply DL_load_model_keeps.
  - apply DL_detect_anomalies_keeps.
Qed.

(** C8, as amended.  A client that calls neither [determine_threshold]
    nor [train_model] (which calls it) leaves the threshold as it was, in
    both classes.  And when [detect_anomalies] reaches its loop with at
    least one sample while the threshold is still [None], the first
    comparison raises ([TypeError] under GMM, [ValueError] under
    DeepLearning) and nothing is printed after what was printed up to the
    loop: no sample gets a verdict. *)
Theorem threshold_only_from_determine_threshold :
  (forall (cs : list Calls.gmm_call) st,
     Forall (fun c => Calls.gmm_thresholds c = false) cs ->
     threshold (self (snd (Calls.run_all Calls.gmm_run cs st))) = threshold (self st)) /\
  (forall (cs : list Calls.dl_call) st,
     Forall (fun c => Calls.dl_thresholds c = false) cs ->
     threshold (self (snd (Calls.run_all Calls.dl_run cs st))) = threshold (self st)) /\
  (forall (st st' : state pyobj) X X' score rest,
     threshold (self st) = None ->
     GMM.score_batch X st = (Ok (X', score :: rest), st') ->
     GMM.detect_anomalies X st =
       (Raised (TypeError "'>' not supported between instances of 'float' and 'NoneType'"),
        st')) /\
  (forall (st st' : state (option keras)) X error rest,
     threshold (self st) = None ->
     DeepLearning.score_batch X st = (Ok (error :: rest), st') ->
     DeepLearning.detect_anomalies X st =
       (Raised (ValueError "None values not supported."), st')).
Proof.
  repeat apply conj.
  - intros cs st Hcs. apply run_all_keeps.
    eapply Forall_impl; [exact Hcs|]. apply gmm_run_keeps.
  - intros cs st Hcs. apply run_all_keeps.
    eapply Forall_impl; [exact Hcs|]. apply dl_run_keeps.
  - intros st st' X X' score rest Ht Hsb.
    rewrite GMM_detect_split. unfold bind. rewrite Hsb.
    apply GMM_classify_none.
    pose proof (GMM_score_batch_keeps X st) as Hk. rewrite Hsb in Hk. simpl in Hk. congruence.
  - intros st st' X error rest Ht Hsb.
    rewrite DL_detect_split. unfold bind. rewrite Hsb.
    apply DL_classify_none.
    pose proof (DL_score_batch_keeps X st) as Hk. rewrite Hsb in Hk. simpl in Hk. congruence.
Qed.

(** C9. In both classes [save_model], [load_model] and [load_scaler]
    leave the threshold as it was; so on an instance that comes from the
    factory and is used for [detect_anomalies] only, the threshold is
    [None] when the loop starts, and still when the call ends, whatever the
    files hold. *)
Theorem threshold_never_restored :
  (keeps_threshold GMM.save_model /\ keeps_threshold GMM.load_model /\
   keeps_threshold GMM.load_scaler) /\
  (keeps_threshold DeepLearning.save_model /\ keeps_threshold DeepLearning.load_model /\
   keeps_threshold DeepLearning.load_scaler) /\
  (forall detector_type dataset_name d (w : world) X,
     anomaly_detector detector_type dataset_name = Ok (IsGMM d) ->
     threshold (self (snd (GMM.score_batch X (State d w)))) = None /\
     threshold (self (snd (GMM.detect_anomalies X (State d w)))) = None) /\
  (forall detector_type dataset_name d (w : world) X,
     anomaly_detector detector_type dataset_name = Ok (IsDeepLearning d) ->
     threshold (self (snd (DeepLearning.score_batch X (State d w)))) = None /\
     threshold (self (snd (DeepLearning.detect_anomalies X (State d w)))) = None).
Proof.
  repeat apply conj.
  - apply GMM_save_model_keeps.
  - apply GMM_load_model_keeps.
  - apply GMM_load_scaler_keeps.
  - apply DL_save_model_keeps.
  - apply DL_load_model_keeps.
  - apply DL_load_scaler_keeps.
  - intros ty ds d w X. unfold anomaly_detector.
    repeat case_bool_decide; intros [= <-].
    by rewrite GMM_score_batch_keeps, GMM_detect_anomalies_keeps.
  - intros ty ds d w X. unfold anomaly_detector.
    repeat case_bool_decide; intros [= <-].
    by rewrite DL_score_batch_keeps, DL_detect_anomalies_keeps.
Qed.

End ThresholdSource.

(** ** Computations that do not look at a given file *)

Section Blind.
Context `{B : Backend} {Mdl : Type}.
Variable path : string.

Lemma same_but_emit (st1 st2 : state Mdl) lines :
  same_but path st1 st2 -> same_but path (emit lines st1) (emit lines st2).
Proof.
  intros (Hs & Hc & Ho & Hf & Hm). unfold same_but, model_path in *. simpl.
  repeat split; try done. by rewrite Ho.
Qed.

Lemma blind_ret {A} (a : A) : blind_to (Mdl := Mdl) path (ret a).
Proof. by intros st1 st2 H. Qed.

Lemma blind_lift {A} (r : result A) : blind_to (Mdl := Mdl) path (lift r).
Proof. by intros st1 st2 H. Qed.

Lemma blind_lift_printing {A} (r : list string * result A) :
  blind_to (Mdl := Mdl) path (lift_printing r).
Proof. intros st1 st2 H. split; [done|]. by apply same_but_emit. Qed.

Lemma blind_bind {A C} (c : M Mdl A) (k : A -> M Mdl C) :
  blind_to path c -> (forall a, blind_to path (k a)) -> blind_to path (bind c k).
Proof.
  intros Hc Hk st1 st2 H. unfold bind. destruct (Hc st1 st2 H) as [Hr Hs].
  destruct (c st1) as [[a1|e1] st1'], (c st2) as [[a2|e2] st2']; simpl in *;
    try discriminate.
  - injection Hr as ->. by apply Hk.
  - injection Hr as ->. by split.
Qed.

Lemma blind_print line : blind_to (Mdl := Mdl) path (print line).
Proof. intros st1 st2 H. split; [done|]. by apply same_but_emit. Qed.

Lemma blind_get_threshold : blind_to (Mdl := Mdl) path get_threshold.
Proof. intros st1 st2 H. split; [|done]. simpl. by destruct H as (-> & _). Qed.

Lemma blind_get_model : blind_to (Mdl := Mdl) path get_model.
Proof. intros st1 st2 H. split; [|done]. simpl. by destruct H as (-> & _). Qed.

Lemma blind_set_model m : blind_to (Mdl := Mdl) path (set_model m).
Proof.
  intros st1 st2 (Hs & Hc & Ho & Hf & Hm). split; [done|].
  unfold same_but, model_path in *. simpl. rewrite Hs in Hm |- *. by repeat split.
Qed.

End Blind.

Create HintDb blind.
#[export] Hint Resolve blind_ret blind_lift blind_lift_printing blind_print
  blind_get_threshold blind_get_model blind_set_model : blind.

(** splits a computation into its steps and looks each one up *)
Ltac blind :=
  repeat match goal with
  | |- blind_to _ (bind _ _) => apply blind_bind; [| intros ?]
  | |- blind_to _ (if ?b then _ else _) => destruct b
  | |- blind_to _ (match ?x with _ => _ end) => destruct x
  | |- blind_to _ _ => solve [auto with blind]
  end.

Section Normalisation.
Context `{B : Backend}.

Lemma same_but_lookup {Mdl} path (st1 st2 : state Mdl) :
  same_but path st1 st2 ->
  model_path st1 = model_path st2 /\
  files (env st1) !! model_path st1 = files (env st2) !! model_path st2.
Proof.
  intros (Hs & Hc & Ho & Hf & Hm).
  assert (model_path st1 = model_path st2) as Hp by (unfold model_path; by rewrite Hs, Hc).
  split; [done|]. rewrite <- Hp.
  rewrite <- (lookup_delete_ne (files (env st1)) path (model_path st1)) by done.
  rewrite <- (lookup_delete_ne (files (env st2)) path (model_path st1)) by done.
  by rewrite Hf.
Qed.

Lemma GMM_load_model_blind path : blind_to path GMM.load_model.
Proof.
  intros st1 st2 H. destruct (same_but_lookup _ _ _ H) as [Hp Hl].
  assert (joblib_load (env st1) (model_path st1) = joblib_load (env st2) (model_path st2)) as Hj.
  { unfold joblib_load. by rewrite Hl, Hp. }
  destruct (joblib_load (env st2) (model_path st2)) as [o|e] eqn:E.
  - rewrite (GMM_load_model_ok _ _ Hj), (GMM_load_model_ok _ _ E). split; [done|].
    apply same_but_emit. by apply (blind_set_model path o st1 st2).
  - rewrite (GMM_load_model_failed _ _ Hj), (GMM_load_model_failed _ _ E). split; [done|].
    by apply same_but_emit.
Qed.

Lemma DL_load_model_blind path : blind_to path DeepLearning.load_model.
Proof.
  intros st1 st2 H. destruct (same_but_lookup _ _ _ H) as [Hp Hl].
  assert (keras_load_model (env st1) (model_path st1)
          = keras_load_model (env st2) (model_path st2)) as Hj.
  { unfold keras_load_model. by rewrite Hl, Hp. }
  destruct (keras_load_model (env st2) (model_path st2)) as [k|e] eqn:E.
  - rewrite (DL_load_model_ok _ _ Hj), (DL_load_model_ok _ _ E). split; [done|].
    apply same_but_emit. by apply (blind_set_model path (Some k) st1 st2).
  - rewrite (DL_load_model_failed _ _ Hj), (DL_load_model_failed _ _ E). split; [done|].
    by apply same_but_emit.
Qed.

Lemma GMM_classify_blind path X scores :
  forall index, blind_to path (GMM.classify X index scores).
Proof. induction scores as [|score rest IH]; intros index; simpl; blind. Qed.

Lemma DL_classify_blind path errors :
  forall index, blind_to path (DeepLearning.classify index errors).
Proof. induction errors as [|error rest IH]; intros index; simpl; blind. Qed.

(** what [detect_anomalies] does with the normalised batch *)
Lemma GMM_after_normalize_blind path X' :
  blind_to path
    (GMM.ensure_model ;>
     m <~ get_model ;>
     scores <~ lift (call_score_samples m X') ;>
     GMM.classify X' 0 scores).
Proof.
  pose proof (GMM_load_model_blind path). pose proof (GMM_classify_blind path).
  unfold GMM.ensure_model. blind.
Qed.

Lemma DL_after_normalize_blind path X' :
  blind_to path
    (DeepLearning.ensure_model ;>
     k <~ DeepLearning.the_model "predict" ;>
     reconstructions <~ lift_printing (keras_predict k X') ;>
     errors <~ lift (mean_squared_error X' reconstructions) ;>
     DeepLearning.classify 0 errors).
Proof.
  pose proof (DL_load_model_blind path). pose proof (DL_classify_blind path).
  unfold DeepLearning.ensure_model, DeepLearning.the_model. blind.
Qed.

Lemma fit_transform_hyper (s1 s2 : Scaler) (X : matrix) :
  hyper s1 = hyper s2 -> fit_transform s1 X = fit_transform s2 X.
Proof. intros H. unfold fit_transform. by rewrite H. Qed.

Lemma GMM_normalize_loaded (st : state pyobj) X s :
  joblib_load (env st) (scaler_path st) = Ok (PyScaler s) ->
  GMM.normalize X st =
    match fit_transform s X with
    | Ok (s', X') =>
        (Ok X', emit ["Scaler loaded successfully."] (with_scaler (PyScaler s') st))
    | Raised e =>
        (Raised e, emit ["Scaler loaded successfully."] (with_scaler (PyScaler s) st))
    end.
Proof.
  intros H. unfold GMM.normalize. unfold bind at 1.
  rewrite (GMM_load_scaler_ok _ _ H).
  unfold bind, get_scaler, lift, call_fit_transform. simpl.
  by destruct (fit_transform s X) as [[s' X']|e].
Qed.

Lemma DL_normalize_loaded (st : state (option keras)) X s :
  joblib_load (env st) (scaler_path st) = Ok (PyScaler s) ->
  DeepLearning.normalize X st =
    match fit_transform s X with
    | Ok (s', X') =>
        (Ok X', emit ["Scaler loaded successfully."] (with_scaler (PyScaler s') st))
    | Raised e =>
        (Raised e, emit ["Scaler loaded successfully."] (with_scaler (PyScaler s) st))
    end.
Proof.
  intros H. unfold DeepLearning.normalize. unfold bind at 1.
  rewrite (DL_load_scaler_ok _ _ H).
  unfold bind, get_scaler, lift, call_fit_transform. simpl.
  by destruct (fit_transform s X) as [[s' X']|e].
Qed.

Lemma joblib_load_with_file {Mdl} (st : state Mdl) o :
  joblib_load (env (with_file (scaler_path st) (Pickle o) st))
              (scaler_path (with_file (scaler_path st) (Pickle o) st)) = Ok o.
Proof. unfold joblib_load. simpl. by rewrite lookup_insert_eq. Qed.

Lemma same_but_refitted {Mdl} (st : state Mdl) o o1 o2 lines :
  model_path st <> scaler_path st ->
  same_but (scaler_path st)
    (emit lines (with_scaler o (with_file (scaler_path st) (Pickle o1) st)))
    (emit lines (with_scaler o (with_file (scaler_path st) (Pickle o2) st))).
Proof.
  intros Hne. unfold same_but. simpl. repeat split; try done.
  by rewrite !delete_insert_eq.
Qed.

End Normalisation.

Section Refit.
Context `{B : Backend}.

Lemma GMM_detect_loaded (st : state pyobj) X s :
  joblib_load (env st) (scaler_path st) = Ok (PyScaler s) ->
  GMM.detect_anomalies X st =
    match fit_transform s X with
    | Ok (s', X') =>
        (GMM.ensure_model ;>
         m <~ get_model ;>
         scores <~ lift (call_score_samples m X') ;>
         GMM.classify X' 0 scores)
          (emit ["Scaler loaded successfully."] (with_scaler (PyScaler s') st))
    | Raised e =>
        (Raised e, emit ["Scaler loaded successfully."] (with_scaler (PyScaler s) st))
    end.
Proof.
  intros H. unfold GMM.detect_anomalies. unfold bind at 1.
  rewrite (GMM_normalize_loaded st X s H).
  by destruct (fit_transform s X) as [[s' X']|e].
Qed.

Lemma DL_detect_loaded (st : state (option keras)) X s :
  joblib_load (env st) (scaler_path st) = Ok (PyScaler s) ->
  DeepLearning.detect_anomalies X st =
    match fit_transform s X with
    | Ok (s', X') =>
        (DeepLearning.ensure_model ;>
         k <~ DeepLearning.the_model "predict" ;>
         reconstructions <~ lift_printing (keras_predict k X') ;>
         errors <~ lift (mean_squared_error X' reconstructions) ;>
         DeepLearning.classify 0 errors)
          (emit ["Scaler loaded successfully."] (with_scaler (PyScaler s') st))
    | Raised e =>
        (Raised e, emit ["Scaler loaded successfully."] (with_scaler (PyScaler s) st))
    end.
Proof.
  intros H. unfold DeepLearning.detect_anomalies. unfold bind at 1.
  rewrite (DL_normalize_loaded st X s H).
  by destruct (fit_transform s X) as [[s' X']|e].
Qed.

Lemma GMM_detect_ignores_fit (st : state pyobj) X s1 s2 :
  hyper s1 = hyper s2 ->
  model_path st <> scaler_path st ->
  let st1 := with_file (scaler_path st) (Pickle (PyScaler s1)) st in
  let st2 := with_file (scaler_path st) (Pickle (PyScaler s2)) st in
  fst (GMM.detect_anomalies X st1) = fst (GMM.detect_anomalies X st2) /\
  stdout (env (snd (GMM.detect_anomalies X st1)))
    = stdout (env (snd (GMM.detect_anomalies X st2))).
Proof.
  intros Hh Hne st1 st2.
  rewrite (GMM_detect_loaded st1 X s1) by apply joblib_load_with_file.
  rewrite (GMM_detect_loaded st2 X s2) by apply joblib_load_with_file.
  rewrite (fit_transform_hyper s1 s2 X Hh).
  destruct (fit_transform s2 X) as [[s' X']|e]; [|done].
  destruct (GMM_after_normalize_blind (scaler_path st) X' _ _
              (same_but_refitted st (PyScaler s') (PyScaler s1) (PyScaler s2)
                 ["Scaler loaded successfully."] Hne)) as [Hr (_ & _ & Ho & _)].
  by split.
Qed.

Lemma DL_detect_ignores_fit (st : state (option keras)) X s1 s2 :
  hyper s1 = hyper s2 ->
  model_path st <> scaler_path st ->
  let st1 := with_file (scaler_path st) (Pickle (PyScaler s1)) st in
  let st2 := with_file (scaler_path st) (Pickle (PyScaler s2)) st in
  fst (DeepLearning.detect_anomalies X st1) = fst (DeepLearning.detect_anomalies X st2) /\
  stdout (env (snd (DeepLearning.detect_anomalies X st1)))
    = stdout (env (snd (DeepLearning.detect_anomalies X st2))).
Proof.
  intros Hh Hne st1 st2.
  rewrite (DL_detect_loaded st1 X s1) by apply joblib_load_with_file.
  rewrite (DL_detect_loaded st2 X s2) by apply joblib_load_with_file.
  rewrite (fit_transform_hyper s1 s2 X Hh).
  destruct (fit_transform s2 X) as [[s' X']|e]; [|done].
  destruct (DL_after_normalize_blind (scaler_path st) X' _ _
              (same_but_refitted st (PyScaler s') (PyScaler s1) (PyScaler s2)
                 ["Scaler loaded successfully."] Hne)) as [Hr (_ & _ & Ho & _)].
  by split.
Qed.

Lemma fit_transform_refits (s : Scaler) (X X' : matrix) s' :
  fit_transform s X = Ok (s', X') ->
  exists p, sk_fit (hyper s) X = Ok p /\ sk_transform (hyper s) p X = Ok X' /\
            s' = {| hyper := hyper s; fitted := Some p |}.
Proof.
  unfold fit_transform, result_bind.
  destruct (sk_fit (hyper s) X) as [p|e]; [|done].
  destruct (sk_transform (hyper s) p X) as [X''|e] eqn:Ht; [|done].
  intros [= <- <-]. exists p. by repeat split.
Qed.

(** C6. In both classes, when the scaler file holds a scaler,
    [detect_anomalies] fits it again on the incoming batch: the call goes
    on with the batch normalised by [sk_transform] with the parameters
    that [sk_fit] returns on that very batch, and with the scaler object
    of the instance refitted to them.  What the persisted scaler had
    learnt plays no part: two scaler files that differ only in the fitted
    parameters give the same outcome and the same printed lines. *)
Theorem detect_refits_scaler_on_batch :
  (forall (st : state pyobj) X s1 s2,
     hyper s1 = hyper s2 ->
     model_path st <> scaler_path st ->
     let st1 := with_file (scaler_path st) (Pickle (PyScaler s1)) st in
     let st2 := with_file (scaler_path st) (Pickle (PyScaler s2)) st in
     (forall p X',
        sk_fit (hyper s1) X = Ok p ->
        sk_transform (hyper s1) p X = Ok X' ->
        GMM.detect_anomalies X st1 =
          (GMM.ensure_model ;>
           m <~ get_model ;>
           scores <~ lift (call_score_samples m X') ;>
           GMM.classify X' 0 scores)
            (emit ["Scaler loaded successfully."]
               (with_scaler (PyScaler {| hyper := hyper s1; fitted := Some p |}) st1))) /\
     fst (GMM.detect_anomalies X st1) = fst (GMM.detect_anomalies X st2) /\
     stdout (env (snd (GMM.detect_anomalies X st1)))
       = stdout (env (snd (GMM.detect_anomalies X st2)))) /\
  (forall (st : state (option keras)) X s1 s2,
     hyper s1 = hyper s2 ->
     model_path st <> scaler_path st ->
     let st1 := with_file (scaler_path st) (Pickle (PyScaler s1)) st in
     let st2 := with_file (scaler_path st) (Pickle (PyScaler s2)) st in
     (forall p X',
        sk_fit (hyper s1) X = Ok p ->
        sk_transform (hyper s1) p X = Ok X' ->
        DeepLearning.detect_anomalies X st1 =
          (DeepLearning.ensure_model ;>
           k <~ DeepLearning.the_model "predict" ;>
           reconstructions <~ lift_printing (keras_predict k X') ;>
           errors <~ lift (mean_squared_error X' reconstructions) ;>
           DeepLearning.classify 0 errors)
            (emit ["Scaler loaded successfully."]
               (with_scaler (PyScaler {| hyper := hyper s1; fitted := Some p |}) st1))) /\
     fst (DeepLearning.detect_anomalies X st1) = fst (DeepLearning.detect_anomalies X st2) /\
     stdout (env (snd (DeepLearning.detect_anomalies X st1)))
       = stdout (env (snd (DeepLearning.detect_anomalies X st2)))).
Proof.
  split.
  - intros st X s1 s2 Hh Hne st1 st2. split; [|by apply GMM_detect_ignores_fit].
    intros p X' Hf Ht.
    rewrite (GMM_detect_loaded st1 X s1) by apply joblib_load_with_file.
    unfold fit_transform, result_bind. by rewrite Hf, Ht.
  - intros st X s1 s2 Hh Hne st1 st2. split; [|by apply DL_detect_ignores_fit].
    intros p X' Hf Ht.
    rewrite (DL_detect_loaded st1 X s1) by apply joblib_load_with_file.
    unfold fit_transform, result_bind. by rewrite Hf, Ht.
Qed.

End Refit.

(** ** Runs of the executable backend *)

Section Runs.
Import Toy.

Lemma artifact_filenames_witness :
  ("location" = "location" /\
   scaler_name (GMM.init "location") = "location_scaler.pkl" /\
   model_name (GMM.init "location") = "GMM_location.pkl" /\
   scaler_name (DeepLearning.init "location") = "location_scaler.pkl" /\
   model_name (DeepLearning.init "location") = "DL_location_model.h5") /\
  ("speed" <> "location" /\
   scaler_name (GMM.init "speed") = "velocity_scaler.pkl" /\
   model_name (GMM.init "speed") = "GMM_velocity.pkl" /\
   scaler_name (DeepLearning.init "speed") = "velocity_scaler.pkl" /\
   model_name (DeepLearning.init "speed") = "DL_velocity_model.h5").
Proof.
  split.
  - split; [reflexivity|].
    exact (proj1 (artifact_filenames (B := backend) "location") eq_refl).
  - assert ("speed" <> "location") as Hne by discriminate.
    split; [exact Hne|].
    exact (proj1 (proj2 (artifact_filenames (B := backend) "speed")) Hne).
Defined.

Lemma factory_dispatch_witness :
  ("classic" = "classic" /\
   anomaly_detector "classic" "location" = Ok (IsGMM (GMM.init "location"))) /\
  ("deep_learning" = "deep_learning" /\
   anomaly_detector "deep_learning" "velocity"
     = Ok (IsDeepLearning (DeepLearning.init "velocity"))) /\
  ("gmm" <> "classic" /\ "gmm" <> "deep_learning" /\
   anomaly_detector "gmm" "location"
     = Raised (ValueError "Invalid anomaly detector type: gmm")).
Proof.
  split; [|split].
  - split; [reflexivity|].
    exact (proj1 (factory_dispatch (B := backend) "classic" "location") eq_refl).
  - split; [reflexivity|].
    exact (proj1 (proj2 (factory_dispatch (B := backend) "deep_learning" "velocity")) eq_refl).
  - assert ("gmm" <> "classic") as H1 by discriminate.
    assert ("gmm" <> "deep_learning") as H2 by discriminate.
    split; [exact H1|]. split; [exact H2|].
    exact (proj1 (proj2 (proj2 (factory_dispatch (B := backend) "gmm" "location"))) H1 H2).
Defined.

(** C3, the claim as stated: [detect_anomalies] on an instance the
    factory has just returned, in a directory without a scaler file,
    raises an [AttributeError] that nothing catches; the [ValueError] of
    the factory is not the only raised error. *)
Lemma factory_error_is_not_the_only_one :
  anomaly_detector "classic" "location" = Ok (IsGMM (GMM.init "location")) /\
  GMM.detect_anomalies batch (State (GMM.init "location") empty_dir) =
    (Raised (AttributeError "'GMM' object has no attribute 'scaler'"),
     emit ["Scaler file not found."] (State (GMM.init "location") empty_dir)).
Proof. split; reflexivity. Qed.

Lemma load_failures_are_caught_witness :
  joblib_load (env (gmm_fresh empty_dir)) (scaler_path (gmm_fresh empty_dir))
    = Raised (FileNotFoundError
                "[Errno 2] No such file or directory: '/data/location_scaler.pkl'") /\
  GMM.load_scaler (gmm_fresh empty_dir)
    = (Ok tt, emit ["Scaler file not found."] (gmm_fresh empty_dir)).
Proof.
  assert (joblib_load (env (gmm_fresh empty_dir)) (scaler_path (gmm_fresh empty_dir))
            = Raised (FileNotFoundError
                        "[Errno 2] No such file or directory: '/data/location_scaler.pkl'"))
    as H by reflexivity.
  split; [exact H|].
  exact (proj1 (load_failures_are_caught (B := backend)) _ _ H).
Defined.

Lemma missing_scaler_raises_witness :
  (scaler (self (gmm_fresh empty_dir)) = None /\
   joblib_load (env (gmm_fresh empty_dir)) (scaler_path (gmm_fresh empty_dir))
     = Raised (FileNotFoundError
                 "[Errno 2] No such file or directory: '/data/location_scaler.pkl'")) /\
  scaler (self (snd (GMM.load_scaler (gmm_fresh empty_dir)))) = None /\
  GMM.detect_anomalies batch (gmm_fresh empty_dir) =
    (Raised (AttributeError "'GMM' object has no attribute 'scaler'"),
     emit ["Scaler file not found."] (gmm_fresh empty_dir)).
Proof.
  assert (joblib_load (env (gmm_fresh empty_dir)) (scaler_path (gmm_fresh empty_dir))
            = Raised (FileNotFoundError
                        "[Errno 2] No such file or directory: '/data/location_scaler.pkl'"))
    as H by reflexivity.
  split; [split; [reflexivity|exact H]|].
  exact (proj1 (proj2 (proj2 (proj2 (missing_scaler_raises (B := backend)))))
           (gmm_fresh empty_dir) batch _ eq_refl H).
Defined.



(** what the two runs of the witness above print *)
Example gmm_ready_prints :
  stdout (env (snd (GMM.detect_anomalies batch gmm_ready))) =
    [ "Scaler loaded successfully.";
      GMM.normal_line [0%float] 0;
      GMM.normal_line [0.5%float] 1;
      GMM.abnormal_line [1%float] 2 ].
Proof. reflexivity. Qed.

Example dl_ready_prints :
  stdout (env (snd (DeepLearning.detect_anomalies batch dl_ready))) =
    [ "Scaler loaded successfully.";
      progress_line 1;
      "Data point at index 0 is Abnormal";
      "Data point at index 1 is Normal";
      "Data point at index 2 is Abnormal" ].
Proof. reflexivity. Qed.

Lemma threshold_and_score_use_two_metrics_witness :
  ((model (self dl_ready) = Some a_network /\
    keras_predict a_network batch = ([progress_line 1], Ok reconstruction)) /\
   DeepLearning.determine_threshold batch dl_ready =
     match mae batch reconstruction with
     | Ok errors =>
         (Ok tt,
          with_threshold (Some (add (np_mean errors) (np_std errors)))
            (emit [progress_line 1] dl_ready))
     | Raised e => (Raised e, emit [progress_line 1] dl_ready)
     end) /\
  ((DeepLearning.normalize batch dl_ready
      = (Ok scaled_batch, snd (DeepLearning.normalize batch dl_ready)) /\
    model (self (snd (DeepLearning.normalize batch dl_ready))) = Some a_network /\
    threshold (self dl_ready) = Some 0.125%float /\
    keras_predict a_network scaled_batch = ([progress_line 1], Ok reconstruction) /\
    mean_squared_error scaled_batch reconstruction = Ok scaled_errors) /\
   DeepLearning.detect_anomalies batch dl_ready =
     (Ok tt,
      emit ([progress_line 1] ++
            imap (fun i error => if gtb error 0.125%float then DeepLearning.abnormal_line i
                                 else DeepLearning.normal_line i) scaled_errors)
        (snd (DeepLearning.normalize batch dl_ready)))).
Proof.
  assert (DeepLearning.normalize batch dl_ready
            = (Ok scaled_batch, snd (DeepLearning.normalize batch dl_ready)))
    as Hn by reflexivity.
  split.
  - split; [split; reflexivity|].
    exact (proj1 (threshold_and_score_use_two_metrics (B := backend)) dl_ready batch a_network
             [progress_line 1] reconstruction eq_refl eq_refl).
  - split; [repeat apply conj; (exact Hn || reflexivity)|].
    exact (proj1 (proj2 (threshold_and_score_use_two_metrics (B := backend)))
             dl_ready _ batch scaled_batch a_network [progress_line 1] reconstruction
             scaled_errors 0.125%float Hn eq_refl eq_refl eq_refl eq_refl).
Defined.

(** the statistic decides the verdict: against a threshold of 0.375 the
    first sample of the normalised batch is above by its mean absolute
    error and below by its mean squared error *)
Example metric_changes_verdict :
  mae scaled_batch reconstruction = Ok [0.5%float; 0%float; 0.5%float] /\
  mean_squared_error scaled_batch reconstruction = Ok scaled_errors /\
  gtb 0.5%float 0.375%float = true /\
  gtb 0.25%float 0.375%float = false.
Proof. repeat apply conj; reflexivity. Qed.

(** on the training batch itself the two statistics already differ *)
Example two_metrics_on_batch :
  mae batch reconstruction = Ok raw_errors /\
  mean_squared_error batch reconstruction = Ok [0.25%float; 2.25%float; 12.25%float].
Proof. split; reflexivity. Qed.

Lemma detect_refits_scaler_on_batch_witness :
  (hyper a_scaler = hyper b_scaler /\ model_path gmm_ready <> scaler_path gmm_ready /\
   sk_fit (hyper a_scaler) batch = Ok (0%float, 4%float) /\
   sk_transform (hyper a_scaler) (0%float, 4%float) batch = Ok scaled_batch) /\
  GMM.detect_anomalies batch
    (with_file (scaler_path gmm_ready) (Pickle (PyScaler a_scaler)) gmm_ready) =
    (GMM.ensure_model ;>
     m <~ get_model ;>
     scores <~ lift (call_score_samples m scaled_batch) ;>
     GMM.classify scaled_batch 0 scores)
      (emit ["Scaler loaded successfully."]
         (with_scaler (PyScaler refit_scaler)
            (with_file (scaler_path gmm_ready) (Pickle (PyScaler a_scaler)) gmm_ready))) /\
  fst (GMM.detect_anomalies batch
         (with_file (scaler_path gmm_ready) (Pickle (PyScaler a_scaler)) gmm_ready))
  = fst (GMM.detect_anomalies batch
           (with_file (scaler_path gmm_ready) (Pickle (PyScaler b_scaler)) gmm_ready)) /\
  stdout (env (snd (GMM.detect_anomalies batch
         (with_file (scaler_path gmm_ready) (Pickle (PyScaler a_scaler)) gmm_ready))))
  = stdout (env (snd (GMM.detect_anomalies batch
           (with_file (scaler_path gmm_ready) (Pickle (PyScaler b_scaler)) gmm_ready)))).
Proof.
  assert (model_path gmm_ready <> scaler_path gmm_ready) as Hne by (vm_compute; discriminate).
  split; [repeat apply conj; (exact Hne || reflexivity)|].
  destruct (proj1 (detect_refits_scaler_on_batch (B := backend)) gmm_ready batch
              a_scaler b_scaler eq_refl Hne) as [Hrefit Hsame].
  split; [|exact Hsame].
  exact (Hrefit (0%float, 4%float) scaled_batch eq_refl eq_refl).
Defined.

(** the two persisted scalers of the witness above would normalise the
    batch differently, and neither as [detect_anomalies] does *)
Example persisted_fits_differ :
  transform a_scaler batch = Ok [[0%float]; [0.25%float]; [0.5%float]] /\
  transform b_scaler batch = Ok [[0.5%float]; [0.75%float]; [1%float]] /\
  fst (GMM.normalize batch gmm_ready) = Ok scaled_batch.
Proof. repeat apply conj; reflexivity. Qed.

Lemma threshold_only_from_determine_threshold_witness :
  (Forall (fun c => Calls.gmm_thresholds c = false)
     [Calls.GBuildModel 1; Calls.GSaveModel; Calls.GLoadScaler; Calls.GLoadModel;
      Calls.GDetectAnomalies batch] /\
   threshold (self (snd (Calls.run_all Calls.gmm_run
     [Calls.GBuildModel 1; Calls.GSaveModel; Calls.GLoadScaler; Calls.GLoadModel;
      Calls.GDetectAnomalies batch] (gmm_fresh trained_dir))))
   = threshold (self (gmm_fresh trained_dir))) /\
  (threshold (self (gmm_fresh trained_dir)) = None /\
   GMM.score_batch batch (gmm_fresh trained_dir)
     = (Ok (scaled_batch, scaled_scores), snd (GMM.score_batch batch (gmm_fresh trained_dir)))) /\
  GMM.detect_anomalies batch (gmm_fresh trained_dir) =
    (Raised (TypeError "'>' not supported between instances of 'float' and 'NoneType'"),
     snd (GMM.score_batch batch (gmm_fresh trained_dir))).
Proof.
  assert (Forall (fun c => Calls.gmm_thresholds c = false)
            [Calls.GBuildModel 1; Calls.GSaveModel; Calls.GLoadScaler; Calls.GLoadModel;
             Calls.GDetectAnomalies batch]) as Hcs by (repeat constructor).
  assert (GMM.score_batch batch (gmm_fresh trained_dir)
            = (Ok (scaled_batch, scaled_scores),
               snd (GMM.score_batch batch (gmm_fresh trained_dir))))
    as Hsb by reflexivity.
  split; [split; [exact Hcs|]|split; [split; [reflexivity|exact Hsb]|]].
  - exact (proj1 (threshold_only_from_determine_threshold (B := backend)) _ _ Hcs).
  - exact (proj1 (proj2 (proj2 (threshold_only_from_determine_threshold (B := backend))))
             (gmm_fresh trained_dir) _ batch _ _ _ eq_refl Hsb).
Defined.

(** C8, the claim as stated: on instances without a threshold, in a
    directory that holds a scaler and the models, three samples are scored
    and none is classified; under GMM no "Normal" line is printed, and
    under DeepLearning no verdict either: both calls end in an exception. *)
Lemma unset_threshold_classifies_nothing :
  (threshold (self (gmm_fresh trained_dir)) = None /\
   fst (GMM.score_batch batch (gmm_fresh trained_dir)) = Ok (scaled_batch, scaled_scores) /\
   fst (GMM.detect_anomalies batch (gmm_fresh trained_dir))
     = Raised (TypeError "'>' not supported between instances of 'float' and 'NoneType'") /\
   stdout (env (snd (GMM.detect_anomalies batch (gmm_fresh trained_dir))))
     = [ "Scaler loaded successfully.";
         "Model not trained. Trying to load the model...";
         "GMM model loaded successfully." ]) /\
  (threshold (self (dl_fresh trained_dir)) = None /\
   fst (DeepLearning.score_batch batch (dl_fresh trained_dir)) = Ok scaled_errors /\
   fst (DeepLearning.detect_anomalies batch (dl_fresh trained_dir))
     = Raised (ValueError "None values not supported.") /\
   stdout (env (snd (DeepLearning.detect_anomalies batch (dl_fresh trained_dir))))
     = [ "Scaler loaded successfully.";
         "Model not trained. Trying to load the model...";
         "Deep Learning model loaded successfully.";
         progress_line 1 ]).
Proof. repeat apply conj; reflexivity. Qed.

Lemma threshold_never_restored_witness :
  anomaly_detector "classic" "location" = Ok (IsGMM (GMM.init "location")) /\
  threshold (self (snd (GMM.score_batch batch (State (GMM.init "location") trained_dir))))
    = None /\
  threshold (self (snd (GMM.detect_anomalies batch (State (GMM.init "location") trained_dir))))
    = None.
Proof.
  split; [reflexivity|].
  exact (proj1 (proj2 (proj2 (threshold_never_restored (B := backend))))
           "classic" "location" _ trained_dir batch eq_refl).
Defined.

End Runs.

(** * Further properties of the methods *)

(** ** Frames *)

Section PreservesRules.
Context `{B : Backend} {Mdl T : Type}.
Variable proj : state Mdl -> T.

Lemma preserves_ret {A} (a : A) : preserves proj (ret a).
Proof. by intros st. Qed.

Lemma preserves_lift {A} (r : result A) : preserves proj (lift r).
Proof. by intros st. Qed.

Lemma preserves_bind {A C} (c : M Mdl A) (k : A -> M Mdl C) :
  preserves proj c -> (forall a, preserves proj (k a)) -> preserves proj (bind c k).
Proof.
  intros Hc Hk st. unfold bind. specialize (Hc st).
  destruct (c st) as [[a|e] st']; simpl in *; [|done].
  by rewrite Hk.
Qed.

Lemma preserves_try_except {A} (body : M Mdl A) (handler : exn -> M Mdl A) :
  preserves proj body -> (forall e, preserves proj (handler e)) ->
  preserves proj (try_except body handler).
Proof.
  intros Hc Hk st. unfold try_except. specialize (Hc st).
  destruct (body st) as [[a|e] st']; simpl in *; [done|].
  by rewrite Hk.
Qed.

Lemma preserves_reads {A} (f : state Mdl -> result A) :
  preserves proj (fun st => (f st, st)).
Proof. by intros st. Qed.

Lemma preserves_get_scaler class_name : preserves proj (get_scaler class_name).
Proof. intros st. unfold get_scaler. by destruct (scaler (self st)). Qed.

Lemma preserves_run_all {C} (run : C -> M Mdl unit) (cs : list C) :
  Forall (fun c => preserves proj (run c)) cs -> preserves proj (Calls.run_all run cs).
Proof.
  induction 1 as [|c cs Hc _ IH]; simpl.
  - apply preserves_ret.
  - apply preserves_bind; [done|]. by intros _.
Qed.

End PreservesRules.

(** splits a computation into its steps; a step that only reads, or
    whose change [proj] does not see, is closed by computation *)
Ltac preserve :=
  repeat match goal with
  | |- preserves _ (bind _ _) => apply preserves_bind; [| intros ?]
  | |- preserves _ (try_except _ _) => apply preserves_try_except; [| intros ?]
  | |- preserves _ (if ?b then _ else _) => destruct b
  | |- preserves _ (match ?x with _ => _ end) => destruct x
  | |- preserves _ (get_scaler _) => apply preserves_get_scaler
  | |- preserves _ _ => solve [ assumption | auto | intros ?; reflexivity ]
  end.

(** The methods and a projection of the state that the assignments to
    [self.threshold], [self.model] and [self.scaler] and the printing do
    not change. *)
Section ReadOnly.
Context `{B : Backend} {T : Type}.

Section OfGMM.
Variable proj : state pyobj -> T.
Hypothesis proj_emit : forall lines st, proj (emit lines st) = proj st.
Hypothesis proj_threshold : forall t st, proj (with_threshold t st) = proj st.
Hypothesis proj_model : forall m st, proj (with_model m st) = proj st.
Hypothesis proj_scaler : forall o st, proj (with_scaler o st) = proj st.

Lemma GMM_load_scaler_preserves : preserves proj GMM.load_scaler.
Proof.
  intros st. destruct (joblib_load (env st) (scaler_path st)) as [o|e] eqn:E.
  - rewrite (GMM_load_scaler_ok _ _ E). simpl. by rewrite proj_emit, proj_scaler.
  - rewrite (GMM_load_scaler_failed _ _ E). simpl. by rewrite proj_emit.
Qed.

Lemma GMM_load_model_preserves : preserves proj GMM.load_model.
Proof.
  intros st. destruct (joblib_load (env st) (model_path st)) as [o|e] eqn:E.
  - rewrite (GMM_load_model_ok _ _ E). simpl. by rewrite proj_emit, proj_model.
  - rewrite (GMM_load_model_failed _ _ E). simpl. by rewrite proj_emit.
Qed.

Lemma preserves_print_gmm line : preserves proj (print line).
Proof. intros st. apply proj_emit. Qed.

Lemma preserves_set_threshold_gmm t : preserves proj (set_threshold t).
Proof. intros st. apply proj_threshold. Qed.

Lemma preserves_set_model_gmm m : preserves proj (set_model m).
Proof. intros st. apply proj_model. Qed.

Lemma preserves_set_scaler_gmm o : preserves proj (set_scaler o).
Proof. intros st. apply proj_scaler. Qed.

Lemma GMM_determine_threshold_preserves X : preserves proj (GMM.determine_threshold X).
Proof.
  pose proof preserves_set_threshold_gmm. unfold GMM.determine_threshold. preserve.
Qed.

Lemma GMM_build_model_preserves n : preserves proj (GMM.build_model n).
Proof. unfold GMM.build_model. apply preserves_set_model_gmm. Qed.

Lemma GMM_classify_preserves X scores :
  forall index, preserves proj (GMM.classify X index scores).
Proof.
  pose proof preserves_print_gmm.
  induction scores as [|score rest IH]; intros index; simpl; preserve.
Qed.

Lemma GMM_normalize_preserves X : preserves proj (GMM.normalize X).
Proof.
  pose proof GMM_load_scaler_preserves. pose proof preserves_set_scaler_gmm.
  unfold GMM.normalize. preserve.
Qed.

Lemma GMM_ensure_model_preserves : preserves proj GMM.ensure_model.
Proof.
  pose proof GMM_load_model_preserves. pose proof preserves_print_gmm.
  unfold GMM.ensure_model. preserve.
Qed.

Lemma GMM_detect_anomalies_preserves X : preserves proj (GMM.detect_anomalies X).
Proof.
  pose proof (GMM_normalize_preserves X). pose proof GMM_ensure_model_preserves.
  pose proof GMM_classify_preserves.
  unfold GMM.detect_anomalies. preserve.
Qed.

(** with a projection that writing a file does not change either *)
Hypothesis proj_file : forall path content st, proj (with_file path content st) = proj st.

Lemma GMM_save_model_preserves : preserves proj GMM.save_model.
Proof.
  assert (forall path content, preserves proj (write_file path content)) by
    (intros path content st; apply proj_file).
  unfold GMM.save_model. preserve.
Qed.

Lemma GMM_train_model_preserves X : preserves proj (GMM.train_model X).
Proof.
  pose proof GMM_save_model_preserves. pose proof (GMM_determine_threshold_preserves X).
  pose proof preserves_print_gmm. pose proof preserves_set_model_gmm.
  unfold GMM.train_model. preserve.
Qed.

End OfGMM.

Section OfDeepLearning.
Variable proj : state (option keras) -> T.
Hypothesis proj_emit : forall lines st, proj (emit lines st) = proj st.
Hypothesis proj_threshold : forall t st, proj (with_threshold t st) = proj st.
Hypothesis proj_model : forall m st, proj (with_model m st) = proj st.
Hypothesis proj_scaler : forall o st, proj (with_scaler o st) = proj st.

Lemma DL_load_scaler_preserves : preserves proj DeepLearning.load_scaler.
Proof.
  intros st. destruct (joblib_load (env st) (scaler_path st)) as [o|e] eqn:E.
  - rewrite (DL_load_scaler_ok _ _ E). simpl. by rewrite proj_emit, proj_scaler.
  - rewrite (DL_load_scaler_failed _ _ E). simpl. by rewrite proj_emit.
Qed.

Lemma DL_load_model_preserves : preserves proj DeepLearning.load_model.
Proof.
  intros st. destruct (keras_load_model (env st) (model_path st)) as [k|e] eqn:E.
  - rewrite (DL_load_model_ok _ _ E). simpl. by rewrite proj_emit, proj_model.
  - rewrite (DL_load_model_failed _ _ E). simpl. by rewrite proj_emit.
Qed.

Lemma preserves_print_dl line : preserves proj (print line).
Proof. intros st. apply proj_emit. Qed.

Lemma preserves_lift_printing_dl {A} (r : list string * result A) :
  preserves proj (lift_printing r).
Proof. intros st. apply proj_emit. Qed.

Lemma preserves_set_threshold_dl t : preserves proj (set_threshold t).
Proof. intros st. apply proj_threshold. Qed.

Lemma preserves_set_model_dl m : preserves proj (set_model m).
Proof. intros st. apply proj_model. Qed.

Lemma preserves_set_scaler_dl o : preserves proj (set_scaler o).
Proof. intros st. apply proj_scaler. Qed.

Lemma DL_the_model_preserves attr : preserves proj (DeepLearning.the_model attr).
Proof. unfold DeepLearning.the_model. preserve. Qed.

Lemma DL_determine_threshold_preserves X : preserves proj (DeepLearning.determine_threshold X).
Proof.
  pose proof preserves_set_threshold_dl. pose proof DL_the_model_preserves.
  pose proof (@preserves_lift_printing_dl).
  unfold DeepLearning.determine_threshold. preserve.
Qed.

Lemma DL_build_model_preserves n : preserves proj (DeepLearning.build_model n).
Proof.
  pose proof preserves_set_model_dl. unfold DeepLearning.build_model. preserve.
Qed.

Lemma DL_classify_preserves errors :
  forall index, preserves proj (DeepLearning.classify index errors).
Proof.
  pose proof preserves_print_dl.
  induction errors as [|error rest IH]; intros index; simpl; preserve.
Qed.

Lemma DL_normalize_preserves X : preserves proj (DeepLearning.normalize X).
Proof.
  pose proof DL_load_scaler_preserves. pose proof preserves_set_scaler_dl.
  unfold DeepLearning.normalize. preserve.
Qed.

Lemma DL_ensure_model_preserves : preserves proj DeepLearning.ensure_model.
Proof.
  pose proof DL_load_model_preserves. pose proof preserves_print_dl.
  unfold DeepLearning.ensure_model. preserve.
Qed.

Lemma DL_detect_anomalies_preserves X : preserves proj (DeepLearning.detect_anomalies X).
Proof.
  pose proof (DL_normalize_preserves X). pose proof DL_ensure_model_preserves.
  pose proof DL_classify_preserves. pose proof DL_the_model_preserves.
  pose proof (@preserves_lift_printing_dl).
  unfold DeepLearning.detect_anomalies. preserve.
Qed.

Hypothesis proj_file : forall path content st, proj (with_file path content st) = proj st.

Lemma DL_save_model_preserves : preserves proj DeepLearning.save_model.
Proof.
  assert (forall path content, preserves proj (write_file path content)) by
    (intros path content st; apply proj_file).
  pose proof DL_the_model_preserves.
  unfold DeepLearning.save_model. preserve.
Qed.

Lemma DL_train_model_preserves X Xt ep bs opt loss :
  preserves proj (DeepLearning.train_model X Xt ep bs opt loss).
Proof.
  pose proof DL_save_model_preserves. pose proof (DL_determine_threshold_preserves X).
  pose proof preserves_print_dl. pose proof preserves_set_model_dl.
  pose proof DL_the_model_preserves. pose proof (@preserves_lift_printing_dl).
  unfold DeepLearning.train_model. preserve.
Qed.

End OfDeepLearning.
End ReadOnly.

(** ** Files and file names *)

Section Artifacts.
Context `{B : Backend}.

Lemma gmm_run_keeps_files (c : Calls.gmm_call) :
  gmm_writes c = false -> preserves (fun st => files (env st)) (Calls.gmm_run c).
Proof.
  destruct c; simpl; try discriminate; intros _.
  - by apply GMM_load_scaler_preserves.
  - by apply GMM_determine_threshold_preserves.
  - by apply GMM_build_model_preserves.
  - by apply GMM_load_model_preserves.
  - by apply GMM_detect_anomalies_preserves.
Qed.

Lemma dl_run_keeps_files (c : Calls.dl_call) :
  dl_writes c = false -> preserves (fun st => files (env st)) (Calls.dl_run c).
Proof.
  destruct c; simpl; try discriminate; intros _.
  - by apply DL_load_scaler_preserves.
  - by apply DL_determine_threshold_preserves.
  - by apply DL_build_model_preserves.
  - by apply DL_load_model_preserves.
  - by apply DL_detect_anomalies_preserves.
Qed.

(** X1. Only [save_model] and [train_model] write files: a client that
    calls neither leaves every file as it was, in both classes and whether
    or not a call raises.  In particular [detect_anomalies] refits the
    scaler in memory only and never writes it back. *)
Theorem only_save_and_train_write_files :
  (forall (cs : list Calls.gmm_call) st,
     Forall (fun c => gmm_writes c = false) cs ->
     files (env (snd (Calls.run_all Calls.gmm_run cs st))) = files (env st)) /\
  (forall (cs : list Calls.dl_call) st,
     Forall (fun c => dl_writes c = false) cs ->
     files (env (snd (Calls.run_all Calls.dl_run cs st))) = files (env st)).
Proof.
  split; intros cs st Hcs.
  - apply (preserves_run_all (fun st => files (env st))).
    eapply Forall_impl; [exact Hcs|]. apply gmm_run_keeps_files.
  - apply (preserves_run_all (fun st => files (env st))).
    eapply Forall_impl; [exact Hcs|]. apply dl_run_keeps_files.
Qed.

Lemma gmm_run_keeps_addresses (c : Calls.gmm_call) : preserves addresses (Calls.gmm_run c).
Proof.
  destruct c; simpl.
  - by apply GMM_load_scaler_preserves.
  - by apply GMM_save_model_preserves.
  - by apply GMM_determine_threshold_preserves.
  - by apply GMM_build_model_preserves.
  - by apply GMM_train_model_preserves.
  - by apply GMM_load_model_preserves.
  - by apply GMM_detect_anomalies_preserves.
Qed.

Lemma dl_run_keeps_addresses (c : Calls.dl_call) : preserves addresses (Calls.dl_run c).
Proof.
  destruct c; simpl.
  - by apply DL_load_scaler_preserves.
  - by apply DL_save_model_preserves.
  - by apply DL_determine_threshold_preserves.
  - by apply DL_build_model_preserves.
  - apply preserves_bind; [by apply DL_train_model_preserves|]. by intros h st.
  - by apply DL_load_model_preserves.
  - by apply DL_detect_anomalies_preserves.
Qed.

(** X2. No method changes [model_name], [scaler_name] or the working
    directory: after any sequence of calls, raising or not, an instance
    still addresses the two files its constructor chose. *)
Theorem addresses_are_fixed :
  (forall (cs : list Calls.gmm_call) st,
     addresses (snd (Calls.run_all Calls.gmm_run cs st)) = addresses st) /\
  (forall (cs : list Calls.dl_call) st,
     addresses (snd (Calls.run_all Calls.dl_run cs st)) = addresses st).
Proof.
  split; intros cs st.
  - apply (preserves_run_all addresses). apply Forall_forall. intros c _.
    apply gmm_run_keeps_addresses.
  - apply (preserves_run_all addresses). apply Forall_forall. intros c _.
    apply dl_run_keeps_addresses.
Qed.

(** two relative names joined to the same directory *)
Lemma joined_names_differ (c a b : string) :
  a <> b ->
  (if bool_decide (c = "") then a else if ends_with_slash c then c +:+ a else c +:+ "/" +:+ a)
  <> (if bool_decide (c = "") then b else if ends_with_slash c then c +:+ b else c +:+ "/" +:+ b).
Proof.
  intros Hab. case_bool_decide; [done|].
  destruct (ends_with_slash c); intros Heq.
  - by apply (inj (String.app c)) in Heq.
  - apply (inj (String.app c)) in Heq. by apply (inj (String.app "/")) in Heq.
Qed.

Lemma GMM_paths_differ dataset_name (w : world) :
  model_path (State (GMM.init dataset_name) w) <> scaler_path (State (GMM.init dataset_name) w).
Proof.
  unfold model_path, scaler_path. simpl.
  case_bool_decide; apply joined_names_differ; discriminate.
Qed.

Lemma DL_paths_differ dataset_name (w : world) :
  model_path (State (DeepLearning.init dataset_name) w)
  <> scaler_path (State (DeepLearning.init dataset_name) w).
Proof.
  unfold model_path, scaler_path. simpl.
  case_bool_decide; apply joined_names_differ; discriminate.
Qed.

Lemma GMM_save_model_run (st : state pyobj) :
  GMM.save_model st = (Ok tt, with_file (model_path st) (Pickle (model (self st))) st).
Proof. reflexivity. Qed.

Lemma DL_save_model_run (st : state (option keras)) :
  DeepLearning.save_model st =
    match model (self st) with
    | Some k => (Ok tt, with_file (model_path st) (H5 k) st)
    | None => (Raised (AttributeError "'NoneType' object has no attribute 'save'"), st)
    end.
Proof.
  unfold DeepLearning.save_model, DeepLearning.the_model, bind, get_model.
  by destruct (model (self st)).
Qed.

(** X3. Whatever the dataset name and the working directory, the model
    file and the scaler file of an instance are different paths; so
    [save_model] of an instance whose names are those of its constructor
    leaves the scaler file as it was, in both classes. *)
Theorem save_model_spares_scaler_file :
  (forall dataset_name (st : state pyobj),
     model_name (self st) = model_name (GMM.init dataset_name) ->
     scaler_name (self st) = scaler_name (GMM.init dataset_name) ->
     model_path st <> scaler_path st /\
     files (env (snd (GMM.save_model st))) !! scaler_path st
       = files (env st) !! scaler_path st) /\
  (forall dataset_name (st : state (option keras)),
     model_name (self st) = model_name (DeepLearning.init dataset_name) ->
     scaler_name (self st) = scaler_name (DeepLearning.init dataset_name) ->
     model_path st <> scaler_path st /\
     files (env (snd (DeepLearning.save_model st))) !! scaler_path st
       = files (env st) !! scaler_path st).
Proof.
  split; intros ds st Hm Hs.
  - assert (model_path st <> scaler_path st) as Hne.
    { pose proof (GMM_paths_differ ds (env st)) as H.
      unfold model_path, scaler_path in *. simpl in H. by rewrite Hm, Hs. }
    split; [done|]. rewrite GMM_save_model_run. simpl. by rewrite lookup_insert_ne.
  - assert (model_path st <> scaler_path st) as Hne.
    { pose proof (DL_paths_differ ds (env st)) as H.
      unfold model_path, scaler_path in *. simpl in H. by rewrite Hm, Hs. }
    split; [done|]. rewrite DL_save_model_run.
    destruct (model (self st)); simpl; [|done]. by rewrite lookup_insert_ne.
Qed.

End Artifacts.

(** ** Saving, loading and training *)

Section Lifecycle.
Context `{B : Backend}.

(** X4. When [GMM.save_model] has returned, [load_model] of any
    instance with the same model name in the same directory gets the very
    object that was saved and reports success.  That holds for [None]
    too: saving an instance that has no model pickles [None], and the later
    load "succeeds" with no model. *)
Theorem GMM_save_then_load (st : state pyobj) (d : detector pyobj) (out : list string) :
  fst (GMM.save_model st) = Ok tt ->
  model_name d = model_name (self st) ->
  GMM.load_model
    (State d (World (cwd (env st)) (files (env (snd (GMM.save_model st)))) out)) =
  (Ok tt,
   emit ["GMM model loaded successfully."]
     (with_model (model (self st))
        (State d (World (cwd (env st)) (files (env (snd (GMM.save_model st)))) out)))).
Proof.
  intros _ Hn.
  apply GMM_load_model_ok. unfold joblib_load, model_path. simpl.
  rewrite Hn. by rewrite lookup_insert_eq.
Qed.

(** X5. When [DeepLearning.save_model] has returned, the instance held
    a model, and [load_model] of any instance with the same model name in
    the same directory gets that model and reports success; on an instance
    without a model [save_model] raises [AttributeError] and writes
    nothing. *)
Theorem DL_save_then_load :
  (forall (st : state (option keras)) (d : detector (option keras)) (out : list string),
     fst (DeepLearning.save_model st) = Ok tt ->
     model_name d = model_name (self st) ->
     exists k,
       model (self st) = Some k /\
       DeepLearning.load_model
         (State d (World (cwd (env st)) (files (env (snd (DeepLearning.save_model st)))) out)) =
       (Ok tt,
        emit ["Deep Learning model loaded successfully."]
          (with_model (Some k)
             (State d (World (cwd (env st))
                             (files (env (snd (DeepLearning.save_model st)))) out))))) /\
  (forall (st : state (option keras)),
     model (self st) = None ->
     DeepLearning.save_model st =
       (Raised (AttributeError "'NoneType' object has no attribute 'save'"), st)).
Proof.
  split.
  - intros st d out Hok Hn. rewrite DL_save_model_run in Hok |- *.
    destruct (model (self st)) as [k|]; [|discriminate Hok].
    exists k. split; [reflexivity|].
    apply DL_load_model_ok. unfold keras_load_model, model_path. simpl.
    rewrite Hn. by rewrite lookup_insert_eq.
  - intros st Hm. by rewrite DL_save_model_run, Hm.
Qed.

Lemma GMM_train_model_run (st : state pyobj) X g g' scores :
  model (self st) = PyGMM g ->
  gmm_fit g X = Ok g' ->
  score_samples g' X = Ok scores ->
  GMM.train_model X st =
    (Ok tt,
     emit ["Training model...";
           "GMM threshold: " +:+ str_num (add (np_mean scores) (np_std scores))]
       (with_threshold (Some (add (np_mean scores) (np_std scores)))
          (with_file (model_path st) (Pickle (PyGMM g'))
             (with_model (PyGMM g') st)))).
Proof.
  intros Hm Hf Hs.
  unfold GMM.train_model, GMM.save_model, GMM.determine_threshold, bind, print, get_model,
    lift, set_model, get_model_name, in_cwd, write_file, set_threshold, get_threshold.
  simpl. rewrite Hm. simpl. rewrite Hf. simpl. rewrite Hs. simpl.
  unfold emit, with_threshold, with_file, with_model, model_path. simpl.
  by rewrite <- app_assoc.
Qed.

(** X6. [GMM.train_model] on an instance that holds a mixture, when
    fitting and scoring succeed: it prints "Training model...", fits the
    model on [X_train], writes the fitted model to the model file, sets the
    threshold to mean plus standard deviation of the fitted model's scores
    of [X_train], and prints that threshold.  The file holds the model
    only: the threshold lives in the instance alone. *)
Theorem GMM_train_model_fits_saves_thresholds (st : state pyobj) X_train g g' scores :
  model (self st) = PyGMM g ->
  gmm_fit g X_train = Ok g' ->
  score_samples g' X_train = Ok scores ->
  GMM.train_model X_train st =
    (Ok tt,
     emit ["Training model...";
           "GMM threshold: " +:+ str_num (add (np_mean scores) (np_std scores))]
       (with_threshold (Some (add (np_mean scores) (np_std scores)))
          (with_file (model_path st) (Pickle (PyGMM g'))
             (with_model (PyGMM g') st)))).
Proof. apply GMM_train_model_run. Qed.

Lemma DL_train_model_run (st : state (option keras)) X Xt ep bs opt loss
    k k1 k2 h fit_lines predict_lines R errors :
  model (self st) = Some k ->
  keras_compile k opt loss = Ok k1 ->
  keras_fit k1 X X ep bs (Xt, Xt) = (fit_lines, Ok (k2, h)) ->
  keras_predict k2 X = (predict_lines, Ok R) ->
  mae X R = Ok errors ->
  DeepLearning.train_model X Xt ep bs opt loss st =
    (Ok h,
     emit ("Training model..." :: fit_lines ++ predict_lines ++
           ["Deep learning threshold: " +:+ str_num (add (np_mean errors) (np_std errors))])
       (with_threshold (Some (add (np_mean errors) (np_std errors)))
          (with_file (model_path st) (H5 k2)
             (with_model (Some k2) st)))).
Proof.
  intros Hm Hc Hf Hp He.
  unfold DeepLearning.train_model, DeepLearning.save_model, DeepLearning.determine_threshold,
    DeepLearning.the_model, bind, print, get_model, lift, lift_printing, ret, set_model,
    get_model_name, in_cwd, write_file, set_threshold, get_threshold.
  simpl. rewrite Hm. simpl. rewrite Hc. simpl. rewrite Hf. simpl. rewrite Hp. simpl.
  rewrite He. simpl.
  unfold emit, with_threshold, with_file, with_model, model_path. simpl.
  by rewrite <- !app_assoc.
Qed.

(** X7. [DeepLearning.train_model] on an instance that holds a network,
    when the library calls succeed: it compiles the model with the given
    optimizer and loss, prints "Training model...", fits it to reproduce
    [X_train] from [X_train] with [(X_test, X_test)] as validation data,
    writes the trained model to the model file, sets the threshold to mean
    plus standard deviation of the [mae] between [X_train] and the trained
    model's reconstructions, prints it, and returns the history of the
    fit.  Between the two lines of the method stand the progress lines
    that [fit] and then [predict] have written. *)
Theorem DL_train_model_compiles_fits_saves_thresholds
    (st : state (option keras)) X_train X_test epochs batch_size optimizer loss
    k k1 k2 hist fit_lines predict_lines reconstructions errors :
  model (self st) = Some k ->
  keras_compile k optimizer loss = Ok k1 ->
  keras_fit k1 X_train X_train epochs batch_size (X_test, X_test)
    = (fit_lines, Ok (k2, hist)) ->
  keras_predict k2 X_train = (predict_lines, Ok reconstructions) ->
  mae X_train reconstructions = Ok errors ->
  DeepLearning.train_model X_train X_test epochs batch_size optimizer loss st =
    (Ok hist,
     emit ("Training model..." :: fit_lines ++ predict_lines ++
           ["Deep learning threshold: " +:+ str_num (add (np_mean errors) (np_std errors))])
       (with_threshold (Some (add (np_mean errors) (np_std errors)))
          (with_file (model_path st) (H5 k2)
             (with_model (Some k2) st)))).
Proof. apply DL_train_model_run. Qed.

(** X8. [train_model] before [build_model]: on an instance without a
    model, GMM prints "Training model..." and then raises
    [AttributeError] at [self.model.fit], while DeepLearning raises it at
    [self.model.compile] before printing anything; in both classes nothing
    is written and the threshold stays as it was. *)
Theorem train_model_needs_a_model :
  (forall (st : state pyobj) X_train,
     model (self st) = PyNone ->
     GMM.train_model X_train st =
       (Raised (AttributeError "'NoneType' object has no attribute 'fit'"),
        emit ["Training model..."] st)) /\
  (forall (st : state (option keras)) X_train X_test epochs batch_size optimizer loss,
     model (self st) = None ->
     DeepLearning.train_model X_train X_test epochs batch_size optimizer loss st =
       (Raised (AttributeError "'NoneType' object has no attribute 'compile'"), st)).
Proof.
  split.
  - intros st X Hm. unfold GMM.train_model, bind, print, get_model, lift. simpl.
    by rewrite Hm.
  - intros st X Xt ep bs opt loss Hm.
    unfold DeepLearning.train_model, DeepLearning.the_model, bind, get_model, lift.
    by rewrite Hm.
Qed.

(** X9. [determine_threshold] is all or nothing for the instance, in
    both classes: either it returns and has changed the threshold alone,
    or it raises (no model, or a library call failed) and the instance and
    the files are as they were.  Under GMM nothing is printed either way;
    under DeepLearning standard output has gained what [predict] wrote, if
    it was called. *)
Theorem determine_threshold_all_or_nothing :
  (forall (st : state pyobj) X_train,
     (exists t, GMM.determine_threshold X_train st = (Ok tt, with_threshold (Some t) st)) \/
     (exists e, GMM.determine_threshold X_train st = (Raised e, st))) /\
  (forall (st : state (option keras)) X_train,
     exists progress,
       (exists t, DeepLearning.determine_threshold X_train st
                  = (Ok tt, with_threshold (Some t) (emit progress st))) \/
       (exists e, DeepLearning.determine_threshold X_train st
                  = (Raised e, emit progress st))).
Proof.
  split.
  - intros st X. unfold GMM.determine_threshold, bind, get_model, lift, set_threshold.
    destruct (call_score_samples (model (self st)) X) as [scores|e]; eauto.
  - intros st X.
    unfold DeepLearning.determine_threshold, DeepLearning.the_model, bind, get_model, lift,
      lift_printing, ret, set_threshold.
    destruct (model (self st)) as [k|].
    + destruct (keras_predict k X) as [progress [R|e]]; exists progress; simpl; [|eauto].
      destruct (mae X R) as [errors|e]; eauto.
    + exists []. right. eexists. by rewrite emit_nil.
Qed.

End Lifecycle.

(** ** More on [detect_anomalies] *)

Section Detection.
Context `{B : Backend}.

Lemma GMM_normalize_keeps_model_file (st st1 : state pyobj) X r :
  GMM.normalize X st = (r, st1) ->
  model (self st1) = model (self st) /\ model_path st1 = model_path st /\
  files (env st1) = files (env st).
Proof.
  intros H.
  pose proof (GMM_normalize_preserves (fun st => model (self st))
                (fun _ _ => eq_refl) (fun _ _ => eq_refl) X st) as H1.
  pose proof (GMM_normalize_preserves (fun st => model_path st)
                (fun _ _ => eq_refl) (fun _ _ => eq_refl) X st) as H2.
  pose proof (GMM_normalize_preserves (fun st => files (env st))
                (fun _ _ => eq_refl) (fun _ _ => eq_refl) X st) as H3.
  rewrite H in H1, H2, H3. done.
Qed.

Lemma DL_normalize_keeps_model_file (st st1 : state (option keras)) X r :
  DeepLearning.normalize X st = (r, st1) ->
  model (self st1) = model (self st) /\ model_path st1 = model_path st /\
  files (env st1) = files (env st).
Proof.
  intros H.
  pose proof (DL_normalize_preserves (fun st => model (self st))
                (fun _ _ => eq_refl) (fun _ _ => eq_refl) X st) as H1.
  pose proof (DL_normalize_preserves (fun st => model_path st)
                (fun _ _ => eq_refl) (fun _ _ => eq_refl) X st) as H2.
  pose proof (DL_normalize_preserves (fun st => files (env st))
                (fun _ _ => eq_refl) (fun _ _ => eq_refl) X st) as H3.
  rewrite H in H1, H2, H3. done.
Qed.

(** X10. [detect_anomalies] on an instance without a model, when the
    batch was normalised but the model file cannot be loaded: the failed
    load is caught and reported, and the very next use of [self.model]
    raises an uncaught [AttributeError] on [None], at [score_samples] under
    GMM and at [predict] under DeepLearning; no sample is scored. *)
Theorem detect_without_model_raises :
  (forall (st st1 : state pyobj) X X' e,
     GMM.normalize X st = (Ok X', st1) ->
     model (self st) = PyNone ->
     joblib_load (env st) (model_path st) = Raised e ->
     GMM.detect_anomalies X st =
       (Raised (AttributeError "'NoneType' object has no attribute 'score_samples'"),
        emit ["Model not trained. Trying to load the model...";
              if is_FileNotFoundError e then "GMM model file not found."
              else "An error occurred while loading the GMM model: " +:+ str_exn e] st1)) /\
  (forall (st st1 : state (option keras)) X X' e,
     DeepLearning.normalize X st = (Ok X', st1) ->
     model (self st) = None ->
     keras_load_model (env st) (model_path st) = Raised e ->
     DeepLearning.detect_anomalies X st =
       (Raised (AttributeError "'NoneType' object has no attribute 'predict'"),
        emit ["Model not trained. Trying to load the model...";
              if is_FileNotFoundError e then "Deep Learning model file not found."
              else "An error occurred while loading the Deep Learning model: "
                   +:+ str_exn e] st1)).
Proof.
  split.
  - intros st st1 X X' e Hn Hm Hl.
    destruct (GMM_normalize_keeps_model_file _ _ _ _ Hn) as (Hm1 & Hp1 & Hf1).
    assert (joblib_load (env (emit ["Model not trained. Trying to load the model..."] st1))
              (model_path (emit ["Model not trained. Trying to load the model..."] st1))
            = Raised e) as Hl1.
    { unfold joblib_load in *. simpl. change (model_path (emit _ st1)) with (model_path st1).
      by rewrite Hp1, Hf1. }
    unfold GMM.detect_anomalies. unfold bind at 1. rewrite Hn.
    unfold bind at 1. unfold GMM.ensure_model. unfold bind at 1. unfold get_model at 1.
    rewrite Hm1, Hm. simpl. unfold bind at 1. unfold print at 1.
    rewrite (GMM_load_model_failed _ _ Hl1).
    unfold bind, get_model, lift. simpl. rewrite Hm1, Hm. simpl.
    by rewrite emit_emit.
  - intros st st1 X X' e Hn Hm Hl.
    destruct (DL_normalize_keeps_model_file _ _ _ _ Hn) as (Hm1 & Hp1 & Hf1).
    assert (keras_load_model
              (env (emit ["Model not trained. Trying to load the model..."] st1))
              (model_path (emit ["Model not trained. Trying to load the model..."] st1))
            = Raised e) as Hl1.
    { unfold keras_load_model in *. simpl.
      change (model_path (emit _ st1)) with (model_path st1).
      by rewrite Hp1, Hf1. }
    unfold DeepLearning.detect_anomalies. unfold bind at 1. rewrite Hn.
    unfold bind at 1. unfold DeepLearning.ensure_model. unfold bind at 1.
    unfold get_model at 1.
    rewrite Hm1, Hm. simpl. unfold bind at 1. unfold print at 1.
    rewrite (DL_load_model_failed _ _ Hl1).
    unfold DeepLearning.the_model, bind, get_model, lift. simpl. rewrite Hm1, Hm. simpl.
    by rewrite emit_emit.
Qed.

(** X11. When the scaler file loads, [detect_anomalies] does not depend
    on the scaler the instance held before the call: every call starts
    again from the persisted object, so the refit a call leaves in memory
    never reaches the next call.  Both classes. *)
Theorem detect_reloads_scaler :
  (forall (st : state pyobj) X o previous,
     joblib_load (env st) (scaler_path st) = Ok o ->
     GMM.detect_anomalies X (with_scaler previous st) = GMM.detect_anomalies X st) /\
  (forall (st : state (option keras)) X o previous,
     joblib_load (env st) (scaler_path st) = Ok o ->
     DeepLearning.detect_anomalies X (with_scaler previous st)
       = DeepLearning.detect_anomalies X st).
Proof.
  split.
  - intros st X o previous H.
    assert (GMM.load_scaler (with_scaler previous st) = GMM.load_scaler st) as Hl.
    { rewrite (GMM_load_scaler_ok st o H).
      by rewrite (GMM_load_scaler_ok (with_scaler previous st) o H). }
    unfold GMM.detect_anomalies, GMM.normalize. unfold bind at 1 2 9 10.
    by rewrite Hl.
  - intros st X o previous H.
    assert (DeepLearning.load_scaler (with_scaler previous st) = DeepLearning.load_scaler st)
      as Hl.
    { rewrite (DL_load_scaler_ok st o H).
      by rewrite (DL_load_scaler_ok (with_scaler previous st) o H). }
    unfold DeepLearning.detect_anomalies, DeepLearning.normalize. unfold bind at 1 2 10 11.
    by rewrite Hl.
Qed.

End Detection.

Section Pipelines.
Context `{B : Backend}.

(** X12. The [AttributeError] for a missing [scaler] attribute needs the
    attribute to be missing: when an earlier call has left a scaler in the
    instance and the scaler file can no longer be loaded,
    [detect_anomalies] reports the failed load and goes on with the scaler
    it still holds, refitting it on the batch.  Both classes. *)
Theorem stale_scaler_is_reused :
  (forall (st : state pyobj) X o e,
     scaler (self st) = Some o ->
     joblib_load (env st) (scaler_path st) = Raised e ->
     GMM.detect_anomalies X st =
       match call_fit_transform o X with
       | Ok (o', X') =>
           (GMM.ensure_model ;>
            m <~ get_model ;>
            scores <~ lift (call_score_samples m X') ;>
            GMM.classify X' 0 scores)
             (emit [if is_FileNotFoundError e then "Scaler file not found."
                    else "An error occurred while loading the scaler: " +:+ str_exn e]
                (with_scaler o' st))
       | Raised e' =>
           (Raised e',
            emit [if is_FileNotFoundError e then "Scaler file not found."
                  else "An error occurred while loading the scaler: " +:+ str_exn e] st)
       end) /\
  (forall (st : state (option keras)) X o e,
     scaler (self st) = Some o ->
     joblib_load (env st) (scaler_path st) = Raised e ->
     DeepLearning.detect_anomalies X st =
       match call_fit_transform o X with
       | Ok (o', X') =>
           (DeepLearning.ensure_model ;>
            k <~ DeepLearning.the_model "predict" ;>
            reconstructions <~ lift_printing (keras_predict k X') ;>
            errors <~ lift (mean_squared_error X' reconstructions) ;>
            DeepLearning.classify 0 errors)
             (emit [if is_FileNotFoundError e then "Scaler file not found."
                    else "An error occurred while loading the scaler: " +:+ str_exn e]
                (with_scaler o' st))
       | Raised e' =>
           (Raised e',
            emit [if is_FileNotFoundError e then "Scaler file not found."
                  else "An error occurred while loading the scaler: " +:+ str_exn e] st)
       end).
Proof.
  split.
  - intros st X o e Hs Hl.
    unfold GMM.detect_anomalies, GMM.normalize. unfold bind at 1 2.
    rewrite (GMM_load_scaler_failed _ _ Hl).
    unfold bind at 1. unfold get_scaler. rewrite self_emit, Hs.
    unfold bind at 1. unfold lift at 1.
    by destruct (call_fit_transform o X) as [[o' X']|e'].
  - intros st X o e Hs Hl.
    unfold DeepLearning.detect_anomalies, DeepLearning.normalize. unfold bind at 1 2.
    rewrite (DL_load_scaler_failed _ _ Hl).
    unfold bind at 1. unfold get_scaler. rewrite self_emit, Hs.
    unfold bind at 1. unfold lift at 1.
    by destruct (call_fit_transform o X) as [[o' X']|e'].
Qed.

(** X13. Training and then detecting on the same GMM instance: when the
    library calls succeed and the scaler file holds a scaler,
    [train_model(X_train)] followed by [detect_anomalies(X)] returns; the
    model file is not read again (no "Model not trained" line), the batch
    is scored by the model just fitted, and the line of each sample follows
    from comparing its score with the threshold taken from the scores of
    [X_train].  The training data reach the model as they are, while the
    batch is normalised first. *)
Theorem GMM_train_then_detect (st : state pyobj) X_train X g g' train_scores s s' X' scores :
  model (self st) = PyGMM g ->
  gmm_fit g X_train = Ok g' ->
  score_samples g' X_train = Ok train_scores ->
  model_path st <> scaler_path st ->
  joblib_load (env st) (scaler_path st) = Ok (PyScaler s) ->
  fit_transform s X = Ok (s', X') ->
  score_samples g' X' = Ok scores ->
  length X' = length scores ->
  (GMM.train_model X_train ;> GMM.detect_anomalies X) st =
    (Ok tt,
     emit ("Training model..."
           :: ("GMM threshold: "
               +:+ str_num (add (np_mean train_scores) (np_std train_scores)))
           :: "Scaler loaded successfully."
           :: imap (fun i rs =>
                      if gtb rs.2 (add (np_mean train_scores) (np_std train_scores))
                      then GMM.normal_line rs.1 i else GMM.abnormal_line rs.1 i)
                   (zip X' scores))
       (with_scaler (PyScaler s')
          (with_threshold (Some (add (np_mean train_scores) (np_std train_scores)))
             (with_file (model_path st) (Pickle (PyGMM g'))
                (with_model (PyGMM g') st))))).
Proof.
  intros Hm Hfit Htr Hne Hl Hft Hs Hlen.
  unfold bind at 1. rewrite (GMM_train_model_run st X_train g g' train_scores Hm Hfit Htr).
  set (t := add (np_mean train_scores) (np_std train_scores)).
  set (st2 := emit _ _).
  assert (joblib_load (env st2) (scaler_path st2) = Ok (PyScaler s)) as Hl2.
  { unfold joblib_load in *. subst st2. simpl.
    change (scaler_path (emit _ _)) with (scaler_path st).
    by rewrite lookup_insert_ne. }
  rewrite (GMM_detect_loaded st2 X s Hl2), Hft.
  unfold bind at 1. unfold GMM.ensure_model, bind at 1. unfold get_model at 1.
  subst st2. simpl. unfold bind, get_model, lift. simpl. rewrite Hs.
  rewrite (GMM_classify_some X' t scores 0) by (simpl; (done || lia)).
  rewrite drop_0. unfold emit, with_scaler, with_threshold, with_file, with_model. simpl.
  by rewrite <- !app_assoc.
Qed.

(** X14. Training and then detecting on the same DeepLearning instance:
    when the library calls succeed and the scaler file holds a scaler,
    [train_model] followed by [detect_anomalies(X)] returns; the model file
    is not read again, and each sample is declared abnormal exactly when
    the mean squared error of its reconstruction by the trained model
    exceeds the threshold, which was taken from mean absolute errors on
    [X_train].  The lines of the two methods stand among the progress
    lines of [fit] and of the two calls of [predict]. *)
Theorem DL_train_then_detect (st : state (option keras))
    X_train X_test epochs batch_size optimizer loss X
    k k1 k2 hist fit_lines train_progress train_reconstructions train_errors
    s s' X' progress reconstructions errors :
  model (self st) = Some k ->
  keras_compile k optimizer loss = Ok k1 ->
  keras_fit k1 X_train X_train epochs batch_size (X_test, X_test)
    = (fit_lines, Ok (k2, hist)) ->
  keras_predict k2 X_train = (train_progress, Ok train_reconstructions) ->
  mae X_train train_reconstructions = Ok train_errors ->
  model_path st <> scaler_path st ->
  joblib_load (env st) (scaler_path st) = Ok (PyScaler s) ->
  fit_transform s X = Ok (s', X') ->
  keras_predict k2 X' = (progress, Ok reconstructions) ->
  mean_squared_error X' reconstructions = Ok errors ->
  (DeepLearning.train_model X_train X_test epochs batch_size optimizer loss ;>
   DeepLearning.detect_anomalies X) st =
    (Ok tt,
     emit ("Training model..." :: fit_lines ++ train_progress ++
           ["Deep learning threshold: "
            +:+ str_num (add (np_mean train_errors) (np_std train_errors));
            "Scaler loaded successfully."] ++
           progress ++
           imap (fun i error =>
                   if gtb error (add (np_mean train_errors) (np_std train_errors))
                   then DeepLearning.abnormal_line i else DeepLearning.normal_line i)
                errors)
       (with_scaler (PyScaler s')
          (with_threshold (Some (add (np_mean train_errors) (np_std train_errors)))
             (with_file (model_path st) (H5 k2)
                (with_model (Some k2) st))))).
Proof.
  intros Hm Hc Hfit Hp Htr Hne Hl Hft Hp' He.
  unfold bind at 1.
  rewrite (DL_train_model_run st X_train X_test epochs batch_size optimizer loss
             k k1 k2 hist fit_lines train_progress train_reconstructions train_errors
             Hm Hc Hfit Hp Htr).
  set (t := add (np_mean train_errors) (np_std train_errors)).
  set (st2 := emit _ _).
  assert (joblib_load (env st2) (scaler_path st2) = Ok (PyScaler s)) as Hl2.
  { unfold joblib_load in *. subst st2. simpl.
    change (scaler_path (emit _ _)) with (scaler_path st).
    by rewrite lookup_insert_ne. }
  rewrite (DL_detect_loaded st2 X s Hl2), Hft.
  unfold bind at 1. unfold DeepLearning.ensure_model, bind at 1. unfold get_model at 1.
  subst st2. simpl.
  unfold DeepLearning.the_model, bind, get_model, lift, lift_printing, ret. simpl.
  rewrite Hp'. simpl. rewrite He.
  rewrite (DL_classify_some t errors 0) by done.
  unfold emit, with_scaler, with_threshold, with_file, with_model. simpl.
  rewrite <- !app_assoc. simpl. by rewrite <- !app_assoc.
Qed.

End Pipelines.

(** ** More runs of the executable backend *)

Section MoreRuns.
Import Toy.

Lemma only_save_and_train_write_files_witness :
  Forall (fun c => gmm_writes c = false)
    [Calls.GLoadScaler; Calls.GBuildModel 2; Calls.GDetectAnomalies batch] /\
  files (env (snd (Calls.run_all Calls.gmm_run
    [Calls.GLoadScaler; Calls.GBuildModel 2; Calls.GDetectAnomalies batch] gmm_ready)))
  = files (env gmm_ready).
Proof.
  assert (Forall (fun c => gmm_writes c = false)
            [Calls.GLoadScaler; Calls.GBuildModel 2; Calls.GDetectAnomalies batch])
    as H by (repeat constructor).
  split; [exact H|].
  exact (proj1 (only_save_and_train_write_files (B := backend)) _ gmm_ready H).
Defined.

Lemma save_model_spares_scaler_file_witness :
  (model_name (self gmm_ready) = model_name (GMM.init "location") /\
   scaler_name (self gmm_ready) = scaler_name (GMM.init "location")) /\
  model_path gmm_ready <> scaler_path gmm_ready /\
  files (env (snd (GMM.save_model gmm_ready))) !! scaler_path gmm_ready
    = files (env gmm_ready) !! scaler_path gmm_ready.
Proof.
  split; [split; reflexivity|].
  exact (proj1 (save_model_spares_scaler_file (B := backend)) "location" gmm_ready
           eq_refl eq_refl).
Defined.

Lemma GMM_save_then_load_witness :
  (fst (GMM.save_model gmm_ready) = Ok tt /\
   model_name (GMM.init "location") = model_name (self gmm_ready)) /\
  GMM.load_model
    (State (GMM.init "location")
       (World (cwd (env gmm_ready)) (files (env (snd (GMM.save_model gmm_ready)))) [])) =
  (Ok tt,
   emit ["GMM model loaded successfully."]
     (with_model (model (self gmm_ready))
        (State (GMM.init "location")
           (World (cwd (env gmm_ready)) (files (env (snd (GMM.save_model gmm_ready)))) [])))).
Proof.
  split; [split; reflexivity|].
  exact (GMM_save_then_load (B := backend) gmm_ready (GMM.init "location") []
           eq_refl eq_refl).
Defined.

Lemma DL_save_then_load_witness :
  (fst (DeepLearning.save_model dl_ready) = Ok tt /\
   model_name (DeepLearning.init "location") = model_name (self dl_ready)) /\
  exists k,
    model (self dl_ready) = Some k /\
    DeepLearning.load_model
      (State (DeepLearning.init "location")
         (World (cwd (env dl_ready))
                (files (env (snd (DeepLearning.save_model dl_ready)))) [])) =
    (Ok tt,
     emit ["Deep Learning model loaded successfully."]
       (with_model (Some k)
          (State (DeepLearning.init "location")
             (World (cwd (env dl_ready))
                    (files (env (snd (DeepLearning.save_model dl_ready)))) [])))).
Proof.
  split; [split; reflexivity|].
  exact (proj1 (DL_save_then_load (B := backend)) dl_ready
           (DeepLearning.init "location") [] eq_refl eq_refl).
Defined.

Lemma GMM_train_model_fits_saves_thresholds_witness :
  (model (self gmm_ready) = PyGMM a_mixture /\
   gmm_fit a_mixture batch = Ok fitted_mixture /\
   score_samples fitted_mixture batch = Ok fitted_scores) /\
  GMM.train_model batch gmm_ready =
    (Ok tt,
     emit ["Training model...";
           "GMM threshold: " +:+ str_num (add (np_mean fitted_scores) (np_std fitted_scores))]
       (with_threshold (Some (add (np_mean fitted_scores) (np_std fitted_scores)))
          (with_file (model_path gmm_ready) (Pickle (PyGMM fitted_mixture))
             (with_model (PyGMM fitted_mixture) gmm_ready)))).
Proof.
  split; [repeat apply conj; reflexivity|].
  exact (GMM_train_model_fits_saves_thresholds (B := backend) gmm_ready batch a_mixture
           fitted_mixture fitted_scores eq_refl eq_refl eq_refl).
Defined.

Lemma DL_train_model_compiles_fits_saves_thresholds_witness :
  (model (self dl_ready) = Some a_network /\
   keras_compile a_network "adam" "mae" = Ok a_network /\
   keras_fit a_network batch batch 10 512 (batch, batch)
     = (epoch_lines 10, Ok (trained_network, [])) /\
   keras_predict trained_network batch = ([progress_line 1], Ok trained_reconstruction) /\
   mae batch trained_reconstruction = Ok trained_errors) /\
  DeepLearning.train_model batch batch 10 512 "adam" "mae" dl_ready =
    (Ok [],
     emit ("Training model..." :: epoch_lines 10 ++ [progress_line 1] ++
           ["Deep learning threshold: "
            +:+ str_num (add (np_mean trained_errors) (np_std trained_errors))])
       (with_threshold (Some (add (np_mean trained_errors) (np_std trained_errors)))
          (with_file (model_path dl_ready) (H5 trained_network)
             (with_model (Some trained_network) dl_ready)))).
Proof.
  split; [repeat apply conj; reflexivity|].
  exact (DL_train_model_compiles_fits_saves_thresholds (B := backend) dl_ready batch batch
           10 512 "adam" "mae" a_network a_network trained_network [] (epoch_lines 10)
           [progress_line 1] trained_reconstruction trained_errors
           eq_refl eq_refl eq_refl eq_refl eq_refl).
Defined.

Lemma train_model_needs_a_model_witness :
  model (self (gmm_fresh empty_dir)) = PyNone /\
  GMM.train_model batch (gmm_fresh empty_dir) =
    (Raised (AttributeError "'NoneType' object has no attribute 'fit'"),
     emit ["Training model..."] (gmm_fresh empty_dir)).
Proof.
  split; [reflexivity|].
  exact (proj1 (train_model_needs_a_model (B := backend)) (gmm_fresh empty_dir) batch eq_refl).
Defined.

Lemma detect_without_model_raises_witness :
  (GMM.normalize batch (gmm_fresh scaler_only_dir)
     = (Ok scaled_batch, snd (GMM.normalize batch (gmm_fresh scaler_only_dir))) /\
   model (self (gmm_fresh scaler_only_dir)) = PyNone /\
   joblib_load (env (gmm_fresh scaler_only_dir)) (model_path (gmm_fresh scaler_only_dir))
     = Raised (FileNotFoundError
                 "[Errno 2] No such file or directory: '/data/GMM_location.pkl'")) /\
  GMM.detect_anomalies batch (gmm_fresh scaler_only_dir) =
    (Raised (AttributeError "'NoneType' object has no attribute 'score_samples'"),
     emit ["Model not trained. Trying to load the model..."; "GMM model file not found."]
       (snd (GMM.normalize batch (gmm_fresh scaler_only_dir)))).
Proof.
  assert (GMM.normalize batch (gmm_fresh scaler_only_dir)
            = (Ok scaled_batch, snd (GMM.normalize batch (gmm_fresh scaler_only_dir))))
    as Hn by reflexivity.
  assert (joblib_load (env (gmm_fresh scaler_only_dir))
            (model_path (gmm_fresh scaler_only_dir))
          = Raised (FileNotFoundError
                      "[Errno 2] No such file or directory: '/data/GMM_location.pkl'"))
    as Hl by reflexivity.
  split; [repeat apply conj; [exact Hn|reflexivity|exact Hl]|].
  exact (proj1 (detect_without_model_raises (B := backend)) _ _ batch scaled_batch _
           Hn eq_refl Hl).
Defined.

Lemma detect_reloads_scaler_witness :
  joblib_load (env (gmm_fresh trained_dir)) (scaler_path (gmm_fresh trained_dir))
    = Ok (PyScaler a_scaler) /\
  GMM.detect_anomalies batch (with_scaler (PyScaler b_scaler) (gmm_fresh trained_dir))
    = GMM.detect_anomalies batch (gmm_fresh trained_dir).
Proof.
  assert (joblib_load (env (gmm_fresh trained_dir)) (scaler_path (gmm_fresh trained_dir))
            = Ok (PyScaler a_scaler)) as H by reflexivity.
  split; [exact H|].
  exact (proj1 (detect_reloads_scaler (B := backend)) (gmm_fresh trained_dir) batch
           (PyScaler a_scaler) (PyScaler b_scaler) H).
Defined.

Lemma stale_scaler_is_reused_witness :
  (scaler (self (with_scaler (PyScaler b_scaler) (gmm_fresh empty_dir)))
     = Some (PyScaler b_scaler) /\
   joblib_load (env (with_scaler (PyScaler b_scaler) (gmm_fresh empty_dir)))
     (scaler_path (with_scaler (PyScaler b_scaler) (gmm_fresh empty_dir)))
     = Raised (FileNotFoundError
                 "[Errno 2] No such file or directory: '/data/location_scaler.pkl'")) /\
  fst (GMM.normalize batch (with_scaler (PyScaler b_scaler) (gmm_fresh empty_dir)))
    = Ok scaled_batch /\
  stdout (env (snd (GMM.detect_anomalies batch
                      (with_scaler (PyScaler b_scaler) (gmm_fresh empty_dir)))))
    = ["Scaler file not found."; "Model not trained. Trying to load the model...";
       "GMM model file not found."].
Proof.
  assert (joblib_load (env (with_scaler (PyScaler b_scaler) (gmm_fresh empty_dir)))
            (scaler_path (with_scaler (PyScaler b_scaler) (gmm_fresh empty_dir)))
          = Raised (FileNotFoundError
                      "[Errno 2] No such file or directory: '/data/location_scaler.pkl'"))
    as Hl by reflexivity.
  split; [split; [reflexivity|exact Hl]|].
  split; [reflexivity|].
  rewrite (proj1 (stale_scaler_is_reused (B := backend))
             (with_scaler (PyScaler b_scaler) (gmm_fresh empty_dir)) batch
             (PyScaler b_scaler) _ eq_refl Hl).
  reflexivity.
Defined.

Lemma GMM_train_then_detect_witness :
  (model (self gmm_ready) = PyGMM a_mixture /\
   gmm_fit a_mixture batch = Ok fitted_mixture /\
   score_samples fitted_mixture batch = Ok fitted_scores /\
   model_path gmm_ready <> scaler_path gmm_ready /\
   joblib_load (env gmm_ready) (scaler_path gmm_ready) = Ok (PyScaler a_scaler) /\
   fit_transform a_scaler batch = Ok (refit_scaler, scaled_batch) /\
   score_samples fitted_mixture scaled_batch = Ok fitted_scaled_scores /\
   length scaled_batch = length fitted_scaled_scores) /\
  fst ((GMM.train_model batch ;> GMM.detect_anomalies batch) gmm_ready) = Ok tt.
Proof.
  assert (model_path gmm_ready <> scaler_path gmm_ready) as Hne by (vm_compute; discriminate).
  split; [repeat apply conj; (exact Hne || reflexivity)|].
  rewrite (GMM_train_then_detect (B := backend) gmm_ready batch batch a_mixture
             fitted_mixture fitted_scores a_scaler refit_scaler scaled_batch
             fitted_scaled_scores eq_refl eq_refl eq_refl Hne eq_refl eq_refl eq_refl eq_refl).
  reflexivity.
Defined.

(** what the run of the witness above prints: the threshold comes from
    scores of the raw training data, and every normalised sample falls
    below it *)
Example gmm_train_then_detect_prints :
  stdout (env (snd ((GMM.train_model batch ;> GMM.detect_anomalies batch) gmm_ready))) =
    [ "Training model...";
      "GMM threshold: " +:+ str_num (add (np_mean fitted_scores) (np_std fitted_scores));
      "Scaler loaded successfully.";
      GMM.abnormal_line [0%float] 0;
      GMM.abnormal_line [0.5%float] 1;
      GMM.abnormal_line [1%float] 2 ].
Proof. reflexivity. Qed.

Lemma DL_train_then_detect_witness :
  (model (self dl_ready) = Some a_network /\
   keras_compile a_network "adam" "mae" = Ok a_network /\
   keras_fit a_network batch batch 10 512 (batch, batch)
     = (epoch_lines 10, Ok (trained_network, [])) /\
   keras_predict trained_network batch = ([progress_line 1], Ok trained_reconstruction) /\
   mae batch trained_reconstruction = Ok trained_errors /\
   model_path dl_ready <> scaler_path dl_ready /\
   joblib_load (env dl_ready) (scaler_path dl_ready) = Ok (PyScaler a_scaler) /\
   fit_transform a_scaler batch = Ok (refit_scaler, scaled_batch) /\
   keras_predict trained_network scaled_batch
     = ([progress_line 1], Ok trained_reconstruction) /\
   mean_squared_error scaled_batch trained_reconstruction = Ok trained_scaled_errors) /\
  fst ((DeepLearning.train_model batch batch 10 512 "adam" "mae" ;>
        DeepLearning.detect_anomalies batch) dl_ready) = Ok tt.
Proof.
  assert (model_path dl_ready <> scaler_path dl_ready) as Hne by (vm_compute; discriminate).
  split; [repeat apply conj; (exact Hne || reflexivity)|].
  rewrite (DL_train_then_detect (B := backend) dl_ready batch batch 10 512 "adam" "mae" batch
             a_network a_network trained_network [] (epoch_lines 10) [progress_line 1]
             trained_reconstruction trained_errors
             a_scaler refit_scaler scaled_batch [progress_line 1] trained_reconstruction
             trained_scaled_errors
             eq_refl eq_refl eq_refl eq_refl eq_refl Hne eq_refl eq_refl eq_refl eq_refl).
  reflexivity.
Defined.

End MoreRuns.
